(** * Verification of the PR2PDF report pipeline (pdf.ts, gemini.ts, github.ts, routes.ts, storage.ts)

    A shallow embedding of the parts of the server that the spec talks about:
    the HTML renderer with its glyph-substitution table, the repository-scope
    prompt builder, the insight generator, the GitHub PR-details fetcher, the
    storage adapter and the route handlers that glue them together. *)

From Stdlib Require Import String Ascii ZArith List Bool Lia Sorting.Sorted Sorting.Permutation
  Numbers.DecimalString.
Import ListNotations.
Open Scope string_scope.

(** ** Strings: the JavaScript operations the code uses *)
Module JsString.

(** The double-quote character (the HTML template contains many). *)
Definition dq : string := String (ascii_of_nat 34) EmptyString.

(** [strip_prefix p s] is [Some rest] when [s = p ++ rest]. *)
Fixpoint strip_prefix (p s : string) : option string :=
  match p, s with
  | EmptyString, _ => Some s
  | String a p', String b s' => if Ascii.eqb a b then strip_prefix p' s' else None
  | String _ _, EmptyString => None
  end.

(** [s.replace(/pat/g, rep)] for a literal, non-empty pattern: a left-to-right
    scan that replaces non-overlapping occurrences.  The fuel is the length of
    the subject, which always suffices since each step consumes a character. *)
Fixpoint replace_all_fuel (fuel : nat) (pat rep s : string) : string :=
  match fuel with
  | O => s
  | S f =>
      match s with
      | EmptyString => EmptyString
      | String c s' =>
          match strip_prefix pat s with
          | Some rest => rep ++ replace_all_fuel f pat rep rest
          | None => String c (replace_all_fuel f pat rep s')
          end
      end
  end.

Definition replace_all (pat rep s : string) : string :=
  replace_all_fuel (String.length s) pat rep s.

(** [s.includes(sub)]. *)
Fixpoint includes (sub s : string) : bool :=
  match strip_prefix sub s with
  | Some _ => true
  | None => match s with
            | EmptyString => false
            | String _ s' => includes sub s'
            end
  end.

(** [arr.join('')]. *)
Fixpoint join_empty (l : list string) : string :=
  match l with
  | [] => EmptyString
  | x :: r => x ++ join_empty r
  end.

(** [String(n)] for an integer-valued number. *)
Definition Z_to_string (z : Z) : string :=
  NilEmpty.string_of_int (Z.to_int z).

(** [toLowerCase()] on the ASCII letters; the only characters the code then
    compares against are the ASCII letters of [demo]. *)
Definition lower_ascii (c : ascii) : ascii :=
  let n := nat_of_ascii c in
  if (65 <=? n)%nat && (n <=? 90)%nat then ascii_of_nat (n + 32) else c.

Fixpoint toLowerCase (s : string) : string :=
  match s with
  | EmptyString => EmptyString
  | String c s' => String (lower_ascii c) (toLowerCase s')
  end.

(** [arr.join(sep)]. *)
Fixpoint join (sep : string) (l : list string) : string :=
  match l with
  | [] => EmptyString
  | [x] => x
  | x :: r => x ++ sep ++ join sep r
  end.

End JsString.

(** ** The renderer (server/services/pdf.ts) *)
Module Pdf.
Import JsString.

(** [interface ReportSection { title; content; items? }] *)
Record ReportSection := mkSection {
  section_title : string;
  section_content : string;
  section_items : option (list string)
}.

(** [interface ReportContent { title; summary; sections; recommendations?; testScenarios? }] *)
Record ReportContent := mkContent {
  title : string;
  summary : string;
  sections : list ReportSection;
  recommendations : option (list string);
  testScenarios : option (list string)
}.

(** The substitution table of [replaceEmojis], in the order of the
    [.replace] chain. *)
Definition emoji_table : list (string * string) := [
    ("📋", "■")  (* clipboard emoji -> solid square *);
    ("💡", "★")  (* light bulb emoji -> star *);
    ("📊", "▲")  (* chart emoji -> triangle *);
    ("⚠️", "⚠")  (* warning emoji -> warning symbol *);
    ("✅", "✓")  (* check mark emoji -> check mark *);
    ("❌", "✗")  (* cross mark emoji -> x mark *);
    ("🔍", "○")  (* magnifying glass -> circle *);
    ("⭐", "★")  (* star emoji -> star symbol *);
    ("🚨", "!")  (* siren emoji -> exclamation *);
    ("🎯", "→")  (* target emoji -> arrow *)
  ].

(** [replaceEmojis]: the chain of [.replace(/glyph/g, symbol)] calls. *)
Definition replaceEmojis (text : string) : string :=
  fold_left (fun acc '(g, r) => replace_all g r acc) emoji_table text.

Definition map_opt (f : string -> string) (o : option (list string)) : option (list string) :=
  match o with
  | Some l => Some (map f l)
  | None => None
  end.

(** [cleanContent]: the content with every text field passed through
    [replaceEmojis]. *)
Definition clean_section (s : ReportSection) : ReportSection :=
  mkSection (replaceEmojis (section_title s)) (replaceEmojis (section_content s))
            (map_opt replaceEmojis (section_items s)).

Definition cleanContent (c : ReportContent) : ReportContent :=
  mkContent (replaceEmojis (title c)) (replaceEmojis (summary c))
            (map clean_section (sections c))
            (map_opt replaceEmojis (recommendations c))
            (map_opt replaceEmojis (testScenarios c)).

(** [{ pm: ..., qa: ..., client: ... }[audienceType] || audienceType] *)
Definition audienceTypeDisplay (audienceType : string) : string :=
  if String.eqb audienceType "pm" then "Project Manager"
  else if String.eqb audienceType "qa" then "Quality Assurance"
  else if String.eqb audienceType "client" then "Client"
  else audienceType.

Definition html_head : string :=
  "
<!DOCTYPE html>
<html lang=" ++ dq ++ "en" ++ dq ++ ">
<head>
    <meta charset=" ++ dq ++ "UTF-8" ++ dq ++ ">
    <meta name=" ++ dq ++ "viewport" ++ dq ++ " content=" ++ dq ++ "width=device-width, initial-scale=1.0" ++ dq ++ ">
    <title>".

Definition html_header_open : string :=
  "</title>
    <style>
        body {
            font-family: 'Arial', 'DejaVu Sans', 'Segoe UI', sans-serif;
            line-height: 1.6;
            color: #333;
            max-width: 800px;
            margin: 0 auto;
            padding: 20px;
        }
        .header {
            border-bottom: 3px solid #4F46E5;
            padding-bottom: 20px;
            margin-bottom: 30px;
        }
        .header h1 {
            color: #4F46E5;
            margin: 0;
            font-size: 28px;
        }
        .audience-badge {
            background: #4F46E5;
            color: white;
            padding: 5px 15px;
            border-radius: 20px;
            font-size: 12px;
            display: inline-block;
            margin-top: 10px;
        }
        .summary {
            background: #F8FAFC;
            padding: 20px;
            border-left: 4px solid #4F46E5;
            margin-bottom: 30px;
        }
        .section {
            margin-bottom: 25px;
        }
        .section h2 {
            color: #1E293B;
            border-bottom: 2px solid #E2E8F0;
            padding-bottom: 5px;
        }
        .test-scenarios {
            background: #FEF3C7;
            padding: 20px;
            border-radius: 8px;
            border-left: 4px solid #F59E0B;
        }
        .recommendations {
            background: #ECFDF5;
            padding: 20px;
            border-radius: 8px;
            border-left: 4px solid #10B981;
        }
        ul {
            padding-left: 20px;
        }
        li {
            margin-bottom: 8px;
        }
        .footer {
            margin-top: 40px;
            padding-top: 20px;
            border-top: 1px solid #E2E8F0;
            text-align: center;
            color: #6B7280;
            font-size: 12px;
        }
    </style>
</head>
<body>
    <div class=" ++ dq ++ "header" ++ dq ++ ">
        <h1>".

Definition html_badge_open : string :=
  "</h1>
        <span class=" ++ dq ++ "audience-badge" ++ dq ++ ">Report for ".

Definition html_summary_open : string :=
  "</span>
    </div>

    <div class=" ++ dq ++ "summary" ++ dq ++ ">
        <h2>Executive Summary</h2>
        <p>".

Definition html_after_summary : string :=
  "</p>
    </div>

    ".

Definition section_open : string :=
  "
        <div class=" ++ dq ++ "section" ++ dq ++ ">
            <h2>".

Definition section_mid : string :=
  "</h2>
            <p>".

Definition section_after_content : string :=
  "</p>
            ".

Definition section_items_open : string :=
  "
                <ul>
                    ".

Definition section_items_close : string :=
  "
                </ul>
            ".

Definition section_close : string :=
  "
        </div>
    ".

Definition html_after_sections : string :=
  "

    ".

Definition scenarios_open : string :=
  "
        <div class=" ++ dq ++ "test-scenarios" ++ dq ++ ">
            <h2>■ Recommended Test Scenarios</h2>
            <ul>
                ".

Definition scenarios_close : string :=
  "
            </ul>
        </div>
    ".

Definition html_after_scenarios : string :=
  "

    ".

Definition recs_open : string :=
  "
        <div class=" ++ dq ++ "recommendations" ++ dq ++ ">
            <h2>★ Recommendations</h2>
            <ul>
                ".

Definition recs_close : string :=
  "
            </ul>
        </div>
    ".

Definition html_footer_open : string :=
  "

    <div class=" ++ dq ++ "footer" ++ dq ++ ">
        <p>Generated by PR Insight • ".

Definition html_footer_close : string :=
  "</p>
    </div>
</body>
</html>".


Definition li (x : string) : string := "<li>" ++ x ++ "</li>".

(** One iteration of [cleanContent.sections.map(section => `...`)]; an
    [items] array, even an empty one, is truthy and renders a list. *)
Definition render_section (s : ReportSection) : string :=
  section_open ++ section_title s ++ section_mid ++ section_content s ++
  section_after_content ++
  match section_items s with
  | Some items => section_items_open ++ join_empty (map li items) ++ section_items_close
  | None => EmptyString
  end ++ section_close.

(** [generateHTMLReport(content, audienceType)].  The footer calls
    [new Date().toLocaleDateString()]; its value at the time of the call is
    the argument [today].  Note that the [<title>] element interpolates
    [content.title], not [cleanContent.title]. *)
Definition generateHTMLReport (content : ReportContent) (audienceType : string)
    (today : string) : string :=
  let cc := cleanContent content in
  html_head ++ title content ++ html_header_open ++ title cc ++ html_badge_open ++
  audienceTypeDisplay audienceType ++ html_summary_open ++ summary cc ++
  html_after_summary ++ join_empty (map render_section (sections cc)) ++
  html_after_sections ++
  match testScenarios cc with
  | Some ts => scenarios_open ++ join_empty (map li ts) ++ scenarios_close
  | None => EmptyString
  end ++ html_after_scenarios ++
  match recommendations cc with
  | Some rs => recs_open ++ join_empty (map li rs) ++ recs_close
  | None => EmptyString
  end ++ html_footer_open ++ today ++ html_footer_close.

End Pdf.


(** ** Data model (shared/schema.ts, services/github.ts) and the world the
    server runs in *)
Module Model.

(** A row of [repositories]; [githubToken] is [None] when the field is absent
    from the object (the sanitised views of storage.ts). *)
Record Repository := mkRepository {
  repo_id : string;
  repo_name : string;
  fullName : string;
  githubToken : option string;
  defaultBranch : option string;
  autoGenerate : option bool
}.

(** [InsertRepository]: the validated body of POST /api/repositories. *)
Record InsertRepository := mkInsertRepository {
  ins_name : string;
  ins_fullName : string;
  ins_githubToken : string;
  ins_defaultBranch : option string;
  ins_autoGenerate : option bool
}.

(** Entries of the GitHub [pulls/:n/files] answer. *)
Record GhFile := mkGhFile {
  filename : string;
  file_status : option string;
  file_additions : Z;
  file_deletions : Z;
  patch : option string
}.

(** [GitHubPRDetails.changes]; fields a stored demo payload lacks are [None]. *)
Record Changes := mkChanges {
  additions : option Z;
  deletions : option Z;
  changed_files : option Z;
  files : list GhFile;
  diff : option string
}.

(** [interface GitHubPR]; timestamps are milliseconds since the epoch and
    [review_comments] is the length of that array. *)
Record GitHubPR := mkGitHubPR {
  gh_id : Z;
  gh_number : Z;
  gh_title : string;
  login : string;
  avatar_url : string;
  state : string;
  created_at : Z;
  updated_at : Z;
  merged_at : option Z;
  review_comments : nat
}.

(** [interface GitHubPRDetails extends GitHubPR { changes }] *)
Record GitHubPRDetails := mkDetails {
  details_pr : GitHubPR;
  changes : Changes
}.

(** A row of [pull_requests]. *)
Record PullRequest := mkPullRequest {
  pr_id : string;
  repositoryId : string;
  number : Z;
  pr_title : string;
  authorName : string;
  authorAvatar : option string;
  status : string;
  reviewStatus : option string;
  createdAt : Z;
  updatedAt : Z;
  mergedAt : option Z;
  pr_changes : option Changes;
  githubId : Z
}.

(** [InsertPullRequest]: a row without its generated id. *)
Record InsertPullRequest := mkInsertPullRequest {
  ipr_repositoryId : string;
  ipr_number : Z;
  ipr_title : string;
  ipr_authorName : string;
  ipr_authorAvatar : option string;
  ipr_status : string;
  ipr_reviewStatus : option string;
  ipr_createdAt : Z;
  ipr_updatedAt : Z;
  ipr_mergedAt : option Z;
  ipr_changes : option Changes;
  ipr_githubId : Z
}.

(** A row of [report_templates]; [systemPrompt] is
    [templateContent.systemPrompt]. *)
Record ReportTemplate := mkReportTemplate {
  tpl_id : string;
  tpl_name : string;
  audienceType : string;
  systemPrompt : option string;
  isDefault : option bool
}.

(** A row of [reports]. *)
Record Report := mkReport {
  report_id : string;
  pullRequestId : string;
  report_audience : string;
  report_content : Pdf.ReportContent;
  pdfPath : option string
}.

(** A row of [repository_reports]. *)
Record RepositoryReport := mkRepositoryReport {
  rr_id : string;
  rr_repositoryId : string;
  reportType : string;
  rr_title : string;
  rr_content : Pdf.ReportContent;
  rr_pdfPath : option string;
  rr_templateId : option string
}.

(** [interface InsightData] *)
Record InsightData := mkInsight {
  insight_type : string;
  insight_title : string;
  insight_description : string;
  severity : string
}.

(** What [response.json()] can yield for the GitHub endpoints the code calls. *)
Inductive Json :=
| JPull (p : GitHubPR)
| JPulls (ps : list GitHubPR)
| JFiles (fs : list GhFile)
| JRepoInfo
| JOther.

(** A [fetch] response: [json_body] is [None] when the body is not JSON. *)
Record HttpResponse := mkHttpResponse {
  http_status : Z;
  statusText : string;
  json_body : option Json;
  text_body : string
}.

Definition response_ok (r : HttpResponse) : bool :=
  (200 <=? http_status r)%Z && (http_status r <=? 299)%Z.

(** Observable effects, most recent first. *)
Inductive Event :=
| GitHubFetch (token url accept : string)
| GeminiRequest (systemInstruction contents : string)
| WriteFile (path contents : string)
| BrowserPdf (path : string)
| ConsoleLog (msg : string)
| ConsoleError (msg : string).

Definition is_github_fetch (e : Event) : bool :=
  match e with GitHubFetch _ _ _ => true | _ => false end.

Definition is_gemini_request (e : Event) : bool :=
  match e with GeminiRequest _ _ => true | _ => false end.

(** Thrown JavaScript values. *)
Inductive Exn :=
| JsError (msg : string)
| UniqueViolation (constraint : string)
| TypeError (msg : string)
| SyntaxError (msg : string).

Record DB := mkDB {
  repositories : list Repository;
  pullRequests : list PullRequest;
  reports : list Report;
  reportTemplates : list ReportTemplate;
  repositoryReports : list RepositoryReport
}.

Definition set_repositories (d : DB) (l : list Repository) : DB :=
  mkDB l (pullRequests d) (reports d) (reportTemplates d) (repositoryReports d).
Definition set_pullRequests (d : DB) (l : list PullRequest) : DB :=
  mkDB (repositories d) l (reports d) (reportTemplates d) (repositoryReports d).
Definition set_reports (d : DB) (l : list Report) : DB :=
  mkDB (repositories d) (pullRequests d) l (reportTemplates d) (repositoryReports d).
Definition set_reportTemplates (d : DB) (l : list ReportTemplate) : DB :=
  mkDB (repositories d) (pullRequests d) (reports d) l (repositoryReports d).
Definition set_repositoryReports (d : DB) (l : list RepositoryReport) : DB :=
  mkDB (repositories d) (pullRequests d) (reports d) (reportTemplates d) l.

(** The store, the effect trace and the source of fresh [gen_random_uuid()]
    identifiers. *)
Record World := mkWorld {
  db : DB;
  trace : list Event;
  next_uuid : nat
}.

(** The outside world the server talks to. *)
Record Env := mkEnv {
  host : string -> string -> string -> HttpResponse;  (* token, url, Accept *)
  gemini_text : string -> string -> option string;    (* response.text *)
  parse_report_content : string -> option Pdf.ReportContent;  (* JSON.parse *)
  parse_insights : string -> option (option (list InsightData));
  json_error : string -> string;        (* message of the SyntaxError JSON.parse throws *)
  browser_error : string -> string -> option Exn;
    (* what puppeteer.launch, newPage, setContent or page.pdf throws for this
       HTML and PDF path; None when the PDF is written *)
  random_base : Z;                      (* Math.floor(Math.random() * 1e9) *)
  now : Z;                              (* Date.now() *)
  today : string;                       (* new Date().toLocaleDateString() *)
  locale_date : Z -> string;            (* Date#toLocaleDateString *)
  date_string : Z -> string;            (* Date#toString *)
  github_token_env : option string;     (* process.env.GITHUB_TOKEN *)
  cwd : string;                         (* process.cwd() *)
  changes_json_length : Changes -> Z    (* JSON.stringify(changes).length *)
}.

(** A state-and-exception monad over [World]: effects performed before a
    throw are kept, as in JavaScript. *)
Definition M (A : Type) : Type := World -> (Exn + A) * World.

Definition ret {A} (a : A) : M A := fun w => (inr a, w).
Definition bind {A B} (m : M A) (k : A -> M B) : M B :=
  fun w => match m w with
           | (inl e, w') => (inl e, w')
           | (inr a, w') => k a w'
           end.
Definition throw {A} (e : Exn) : M A := fun w => (inl e, w).
Definition try_catch {A} (m : M A) (h : Exn -> M A) : M A :=
  fun w => match m w with
           | (inl e, w') => h e w'
           | r => r
           end.
Definition emit (e : Event) : M unit :=
  fun w => (inr tt, mkWorld (db w) (e :: trace w) (next_uuid w)).
Definition get_db : M DB := fun w => (inr (db w), w).
Definition put_db (d : DB) : M unit :=
  fun w => (inr tt, mkWorld d (trace w) (next_uuid w)).

Notation "x <- m ;; k" := (bind m (fun x => k))
  (at level 61, m at next level, right associativity).

Fixpoint iter_m {A} (f : A -> M unit) (l : list A) : M unit :=
  match l with
  | [] => ret tt
  | x :: r => bind (f x) (fun _ => iter_m f r)
  end.

(** HTTP answers of the route handlers. *)
Inductive Body :=
| BRepository (r : Repository)
| BRepositories (rs : list Repository)
| BReport (r : Report)
| BRepositoryReport (r : RepositoryReport)
| BMessage (msg : string)
| BSuccess
| BNoContent.

Record Response := mkResponse {
  status_code : Z;
  body : Body
}.

End Model.

(** ** The persistence adapter (server/storage.ts, [DatabaseStorage]) *)
Module Storage.
Import JsString Model.

(** [gen_random_uuid()] *)
Definition fresh_id : M string :=
  fun w => (inr ("uuid-" ++ Z_to_string (Z.of_nat (next_uuid w))),
            mkWorld (db w) (trace w) (S (next_uuid w))).

(** The columns [getRepositories], [getRepository] and
    [getRepositoryByFullName] copy: everything but the token (and the branch
    and auto-generate flags). *)
Definition sanitize (r : Repository) : Repository :=
  mkRepository (repo_id r) (repo_name r) (fullName r) None None None.

(** Rows are kept oldest first, so [orderBy(desc(createdAt))] is [rev]. *)
Definition getRepositories : M (list Repository) :=
  d <- get_db ;; ret (map sanitize (rev (repositories d))).

Definition find_repository (id : string) (d : DB) : option Repository :=
  find (fun r => String.eqb (repo_id r) id) (repositories d).

Definition getRepository (id : string) : M (option Repository) :=
  d <- get_db ;; ret (option_map sanitize (find_repository id d)).

Definition getRepositoryWithToken (id : string) : M (option Repository) :=
  d <- get_db ;; ret (find_repository id d).

(** [db.insert(repositories).values(repository).returning()]: [full_name] is
    unique; the column defaults fill [default_branch] and [auto_generate]. *)
Definition createRepository (ins : InsertRepository) : M Repository :=
  d <- get_db ;;
  if existsb (fun r => String.eqb (fullName r) (ins_fullName ins)) (repositories d)
  then throw (UniqueViolation "repositories_full_name_unique")
  else
    id <- fresh_id ;;
    let row := mkRepository id (ins_name ins) (ins_fullName ins)
                 (Some (ins_githubToken ins))
                 (Some (match ins_defaultBranch ins with Some b => b | None => "main" end))
                 (Some (match ins_autoGenerate ins with Some b => b | None => true end)) in
    _ <- put_db (set_repositories d (repositories d ++ [row])) ;;
    ret row.

(** [orderBy(desc(updatedAt))]: an insertion sort, newest first; rows with
    equal timestamps keep their stored order. *)
Fixpoint insert_desc (p : PullRequest) (l : list PullRequest) : list PullRequest :=
  match l with
  | [] => [p]
  | q :: r => if (updatedAt q <? updatedAt p)%Z then p :: l else q :: insert_desc p r
  end.

Definition sort_desc (l : list PullRequest) : list PullRequest :=
  fold_right insert_desc [] l.

Definition prs_of_repository (repositoryId' : string) (d : DB) : list PullRequest :=
  filter (fun p => String.eqb (repositoryId p) repositoryId') (pullRequests d).

Definition getPullRequestsByRepository (repositoryId' : string) : M (list PullRequest) :=
  d <- get_db ;; ret (sort_desc (prs_of_repository repositoryId' d)).

Definition getPullRequest (id : string) : M (option PullRequest) :=
  d <- get_db ;; ret (find (fun p => String.eqb (pr_id p) id) (pullRequests d)).

Definition getPullRequestByGithubId (gid : Z) : M (option PullRequest) :=
  d <- get_db ;; ret (find (fun p => Z.eqb (githubId p) gid) (pullRequests d)).

Definition row_of_insert (id : string) (i : InsertPullRequest) : PullRequest :=
  mkPullRequest id (ipr_repositoryId i) (ipr_number i) (ipr_title i)
    (ipr_authorName i) (ipr_authorAvatar i) (ipr_status i) (ipr_reviewStatus i)
    (ipr_createdAt i) (ipr_updatedAt i) (ipr_mergedAt i) (ipr_changes i)
    (ipr_githubId i).

(** [github_id] is unique. *)
Definition createPullRequest (i : InsertPullRequest) : M PullRequest :=
  d <- get_db ;;
  if existsb (fun p => Z.eqb (githubId p) (ipr_githubId i)) (pullRequests d)
  then throw (UniqueViolation "pull_requests_github_id_unique")
  else
    id <- fresh_id ;;
    let row := row_of_insert id i in
    _ <- put_db (set_pullRequests d (pullRequests d ++ [row])) ;;
    ret row.

(** [updatePullRequest] with a full [InsertPullRequest] as the update. *)
Definition updatePullRequest (id : string) (i : InsertPullRequest) : M (option PullRequest) :=
  d <- get_db ;;
  let upd p := if String.eqb (pr_id p) id then row_of_insert id i else p in
  match find (fun p => String.eqb (pr_id p) id) (pullRequests d) with
  | None => ret None
  | Some _ =>
      _ <- put_db (set_pullRequests d (map upd (pullRequests d))) ;;
      ret (Some (row_of_insert id i))
  end.

Definition getReportTemplate (id : string) : M (option ReportTemplate) :=
  d <- get_db ;; ret (find (fun t => String.eqb (tpl_id t) id) (reportTemplates d)).

Definition getReportTemplates : M (list ReportTemplate) :=
  d <- get_db ;; ret (rev (reportTemplates d)).

(** [db.delete(reportTemplates).where(eq(id))]; [rowCount > 0]. *)
Definition deleteReportTemplate (id : string) : M bool :=
  d <- get_db ;;
  let kept := filter (fun t => negb (String.eqb (tpl_id t) id)) (reportTemplates d) in
  _ <- put_db (set_reportTemplates d kept) ;;
  ret (Nat.ltb (List.length kept) (List.length (reportTemplates d))).

Definition createReport (prId audience : string) (c : Pdf.ReportContent) : M Report :=
  d <- get_db ;;
  id <- fresh_id ;;
  let row := mkReport id prId audience c None in
  _ <- put_db (set_reports d (reports d ++ [row])) ;;
  ret row.

Definition updateReportPdfPath (id path : string) : M (option Report) :=
  d <- get_db ;;
  let upd r := if String.eqb (report_id r) id
               then mkReport (report_id r) (pullRequestId r) (report_audience r)
                      (report_content r) (Some path)
               else r in
  match find (fun r => String.eqb (report_id r) id) (reports d) with
  | None => ret None
  | Some r =>
      _ <- put_db (set_reports d (map upd (reports d))) ;;
      ret (Some (upd r))
  end.

Definition createRepositoryReport (repositoryId' reportType' title' : string)
    (c : Pdf.ReportContent) (templateId : option string) : M RepositoryReport :=
  d <- get_db ;;
  id <- fresh_id ;;
  let row := mkRepositoryReport id repositoryId' reportType' title' c None templateId in
  _ <- put_db (set_repositoryReports d (repositoryReports d ++ [row])) ;;
  ret row.

Definition updateRepositoryReportPdfPath (id path : string) : M (option RepositoryReport) :=
  d <- get_db ;;
  let upd r := if String.eqb (rr_id r) id
               then mkRepositoryReport (rr_id r) (rr_repositoryId r) (reportType r)
                      (rr_title r) (rr_content r) (Some path) (rr_templateId r)
               else r in
  match find (fun r => String.eqb (rr_id r) id) (repositoryReports d) with
  | None => ret None
  | Some r =>
      _ <- put_db (set_repositoryReports d (map upd (repositoryReports d))) ;;
      ret (Some (upd r))
  end.

End Storage.

(** ** The prompt builder (server/services/gemini.ts) *)
Module Prompts.
Import JsString Model.

Definition audience_base_prompt : string :=
  "
You are an expert technical analyst specializing in pull request analysis and documentation. 
Generate a comprehensive, professional report based on the provided pull request data.
".

Definition audience_prompt_pm : string :=
  "
Focus on PROJECT MANAGEMENT perspective:
- Business impact and feature delivery
- Timeline implications
- Resource allocation insights
- Risk assessment for project delivery
- User-facing changes and their impact
- Dependencies and blockers
- Integration with project milestones

Structure the report with:
- Executive summary highlighting business value
- Feature impact analysis
- Timeline and resource considerations
- Risk mitigation strategies
- Stakeholder communication points
".

Definition audience_prompt_qa : string :=
  "
Focus on QUALITY ASSURANCE perspective:
- Detailed test scenarios and test cases
- Edge cases and boundary conditions
- Integration testing requirements
- Performance testing considerations
- Security testing implications
- Regression testing scope
- User acceptance testing scenarios

IMPORTANT: Always include a comprehensive " ++ dq ++ "testScenarios" ++ dq ++ " array with 8-15 specific, actionable test cases.

Structure the report with:
- Testing strategy overview
- Functional testing requirements
- Non-functional testing considerations
- Test environment setup needs
- Risk-based testing prioritization
".

Definition audience_prompt_client : string :=
  "
Focus on CLIENT/STAKEHOLDER perspective:
- Business value and user benefits
- User experience improvements
- Feature functionality overview
- Impact on existing workflows
- Performance and reliability improvements
- Future roadmap alignment
- Success metrics and outcomes

Structure the report with:
- Business value summary
- User impact analysis
- Feature overview in business terms
- Expected outcomes and benefits
- Next steps and future enhancements
".

Definition audience_prompt_default : string :=
  "
Provide a balanced technical and business perspective suitable for a general technical audience.
".

Definition repository_base_prompt : string :=
  "
You are an expert project analyst specializing in repository analysis and client reporting.
Generate a comprehensive, professional MVP summary report suitable for client presentation.
".

Definition repository_prompt_mvp_summary : string :=
  "
Focus on CLIENT/STAKEHOLDER MVP perspective:
- Business value and deliverable achievements
- Feature completion status and progress
- Development velocity and team performance
- Quality metrics and code review practices  
- Risk assessment and mitigation strategies
- Upcoming milestones and next steps
- ROI and success indicators

Structure the report with:
- Executive Summary highlighting key achievements
- MVP Progress Overview with completion percentages
- Feature Delivery Analysis with business impact
- Development Quality Assessment
- Team Performance Metrics
- Risk Analysis and Mitigation Plans
- Future Roadmap and Recommendations

Make it client-friendly with business terminology and clear value propositions.
".

Definition repository_prompt_client_overview : string :=
  "
Focus on high-level CLIENT OVERVIEW perspective:
- Overall project health and status
- Key deliverables and achievements
- Business impact of completed features
- Timeline adherence and delivery predictability
- Quality assurance and testing coverage
- User feedback and satisfaction metrics

Structure for executive consumption with clear business value.
".

Definition repository_prompt_default : string :=
  "
Provide a comprehensive repository analysis suitable for technical stakeholders and clients.
Focus on project progress, quality metrics, and business value delivery.
".

Definition insights_system_prompt : string :=
  "
You are an expert software development analyst. Analyze the provided pull requests and generate actionable insights about the codebase health, potential risks, and recommendations.

Focus on:
1. Code quality and maintainability issues
2. Performance implications
3. Security concerns
4. Testing coverage needs
5. Breaking changes or compatibility issues
6. Development workflow patterns

For each insight, determine the severity level:
- " ++ dq ++ "info" ++ dq ++ ": General observations or positive patterns
- " ++ dq ++ "warning" ++ dq ++ ": Potential issues that should be monitored
- " ++ dq ++ "error" ++ dq ++ ": Critical issues requiring immediate attention

Provide 3-5 most important insights.
".

Definition pr_prompt_title : string :=
  "
Analyze the following pull request and generate a comprehensive report:

**Pull Request Information:**
- Title: ".

Definition pr_prompt_author : string :=
  "
- Author: ".

Definition pr_prompt_state : string :=
  "
- State: ".

Definition pr_prompt_files_changed : string :=
  "
- Files Changed: ".

Definition pr_prompt_additions : string :=
  "
- Additions: ".

Definition pr_prompt_deletions : string :=
  "
- Deletions: ".

Definition pr_prompt_files_open : string :=
  "

**Changed Files:**
".

Definition pr_file_open : string :=
  "
- ".

Definition pr_file_status : string :=
  " (".

Definition pr_file_additions : string :=
  ")
  - +".

Definition pr_file_deletions : string :=
  " -".

Definition pr_file_close : string :=
  "
".

Definition pr_prompt_code_changes : string :=
  "

**Code Changes:**
".

Definition pr_prompt_close : string :=
  "

Generate a detailed report following the system instructions.
".

Definition repo_prompt_name : string :=
  "
Analyze the following repository and generate a comprehensive MVP summary report for clients:

**Repository Information:**
- Name: ".

Definition repo_prompt_fullname : string :=
  "
- Full Name: ".

Definition repo_prompt_total : string :=
  "
- Total Pull Requests: ".

Definition repo_prompt_open : string :=
  "
- Open PRs: ".

Definition repo_prompt_closed : string :=
  "
- Closed PRs: ".

Definition repo_prompt_merged : string :=
  "
- Merged PRs: ".

Definition repo_prompt_active : string :=
  "

**Development Summary:**
- Active Features: ".

Definition repo_prompt_completed : string :=
  "
- Completed Features: ".

Definition repo_prompt_contributors : string :=
  "
- Contributors: ".

Definition repo_prompt_last_activity : string :=
  "
- Last Activity: ".

Definition repo_prompt_recent : string :=
  "

**Recent Pull Requests:**
".

Definition repo_pr_open : string :=
  "
- PR #".

Definition repo_pr_title : string :=
  ": ".

Definition repo_pr_author : string :=
  "
  - Author: ".

Definition repo_pr_status : string :=
  "
  - Status: ".

Definition repo_pr_review : string :=
  " ".

Definition repo_pr_created : string :=
  "
  - Created: ".

Definition repo_pr_merged : string :=
  "
  ".

Definition repo_pr_close : string :=
  "
".

Definition repo_prompt_generate : string :=
  "

Generate a ".

Definition repo_prompt_kind : string :=
  " that highlights:
1. Overall project progress and achievements
2. Key features delivered and in development
3. Development velocity and team productivity
4. Quality indicators and code review practices
5. Upcoming milestones and deliverables
6. Risk assessment and mitigation strategies

".

Definition repo_prompt_mvp_sections : string :=
  "
The report sections must include:
- Executive Summary highlighting key achievements
- MVP Progress Overview with completion percentages
- Feature Delivery Analysis with business impact
- Development Quality Assessment
- Team Performance Metrics
- Risk Analysis and Mitigation Plans
- Future Roadmap and Recommendations
".

Definition repo_prompt_overview_sections : string :=
  "
The report sections must include:
- Overall project health and status
- Key deliverables and achievements
- Business impact of completed features
- Timeline adherence and delivery predictability
- Quality assurance and testing coverage
".

Definition repo_prompt_close : string :=
  "

The report should be suitable for client presentation and demonstrate the value delivered.
".

(** [getSystemPromptForAudience] *)
Definition getSystemPromptForAudience (audienceType' : string) : string :=
  audience_base_prompt ++
  (if String.eqb audienceType' "pm" then audience_prompt_pm
   else if String.eqb audienceType' "qa" then audience_prompt_qa
   else if String.eqb audienceType' "client" then audience_prompt_client
   else audience_prompt_default).

(** [getSystemPromptFromTemplate]: a non-empty [templateContent.systemPrompt]
    wins, otherwise the template's own audience decides. *)
Definition getSystemPromptFromTemplate (t : ReportTemplate) : string :=
  match systemPrompt t with
  | Some p => if String.eqb p EmptyString then getSystemPromptForAudience (audienceType t) else p
  | None => getSystemPromptForAudience (audienceType t)
  end.

(** [getRepositorySystemPrompt] *)
Definition getRepositorySystemPrompt (reportType : string) : string :=
  repository_base_prompt ++
  (if String.eqb reportType "mvp_summary" then repository_prompt_mvp_summary
   else if String.eqb reportType "client_overview" then repository_prompt_client_overview
   else repository_prompt_default).

(** Interpolating a possibly [undefined] value. *)
Definition show_opt (o : option string) : string :=
  match o with Some s => s | None => "undefined" end.

Definition show_opt_Z (o : option Z) : string :=
  show_opt (option_map Z_to_string o).

Definition render_changed_file (f : GhFile) : string :=
  pr_file_open ++ filename f ++ pr_file_status ++ show_opt (file_status f) ++
  pr_file_additions ++ Z_to_string (file_additions f) ++ pr_file_deletions ++
  Z_to_string (file_deletions f) ++ pr_file_close.

(** [files.map(file => file.patch).filter(Boolean)] *)
Definition truthy_patches (fs : list GhFile) : list string :=
  fold_right (fun f acc => match patch f with
                           | Some p => if String.eqb p EmptyString then acc else p :: acc
                           | None => acc
                           end) [] fs.

Definition code_changes (fs : list GhFile) : string :=
  let j := join (String "010" (String "010" EmptyString)) (truthy_patches fs) in
  if String.eqb j EmptyString then "No diff available" else j.

(** The user prompt of [generateReportContent]. *)
Definition pr_user_prompt (d : GitHubPRDetails) : string :=
  let p := details_pr d in
  let ch := changes d in
  pr_prompt_title ++ gh_title p ++ pr_prompt_author ++ login p ++
  pr_prompt_state ++ state p ++ pr_prompt_files_changed ++
  show_opt_Z (changed_files ch) ++ pr_prompt_additions ++ show_opt_Z (additions ch) ++
  pr_prompt_deletions ++ show_opt_Z (deletions ch) ++ pr_prompt_files_open ++
  join_empty (map render_changed_file (files ch)) ++ pr_prompt_code_changes ++
  code_changes (files ch) ++ pr_prompt_close.

(** [RepositoryReportInput] (shared/schema.ts) *)
Record RepoInfo := mkRepoInfo {
  ri_name : string;
  ri_fullName : string;
  totalPRs : Z;
  openPRs : Z;
  closedPRs : Z;
  mergedPRs : Z
}.

Record PrSummary := mkPrSummary {
  ps_number : Z;
  ps_title : string;
  ps_author : string;
  ps_status : string;
  ps_reviewStatus : option string;
  ps_createdAt : Z;
  ps_updatedAt : Z;
  ps_mergedAt : option Z
}.

Record RepoSummary := mkRepoSummary {
  activeFeatures : Z;
  completedFeatures : Z;
  totalContributors : Z;
  lastActivity : Z
}.

Record RepositoryReportInput := mkRepositoryReportInput {
  rri_repository : RepoInfo;
  rri_pullRequests : list PrSummary;
  rri_summary : RepoSummary
}.

Section RepositoryPrompt.
Variable env : Env.

(** One iteration of [repositoryData.pullRequests.slice(0, 10).map(pr => ...)]. *)
Definition render_repo_pr (pr : PrSummary) : string :=
  repo_pr_open ++ Z_to_string (ps_number pr) ++ repo_pr_title ++ ps_title pr ++
  repo_pr_author ++ ps_author pr ++ repo_pr_status ++ ps_status pr ++ repo_pr_review ++
  match ps_reviewStatus pr with
  | Some r => if String.eqb r EmptyString then EmptyString else "(" ++ r ++ ")"
  | None => EmptyString
  end ++ repo_pr_created ++ locale_date env (ps_createdAt pr) ++ repo_pr_merged ++
  match ps_mergedAt pr with
  | Some m => "- Merged: " ++ locale_date env m
  | None => EmptyString
  end ++ repo_pr_close.

(** The part of the prompt before the PR list: the aggregate counts. *)
Definition repo_prompt_header (data : RepositoryReportInput) : string :=
  let r := rri_repository data in
  let s := rri_summary data in
  repo_prompt_name ++ ri_name r ++ repo_prompt_fullname ++ ri_fullName r ++
  repo_prompt_total ++ Z_to_string (totalPRs r) ++ repo_prompt_open ++
  Z_to_string (openPRs r) ++ repo_prompt_closed ++ Z_to_string (closedPRs r) ++
  repo_prompt_merged ++ Z_to_string (mergedPRs r) ++ repo_prompt_active ++
  Z_to_string (activeFeatures s) ++ repo_prompt_completed ++
  Z_to_string (completedFeatures s) ++ repo_prompt_contributors ++
  Z_to_string (totalContributors s) ++ repo_prompt_last_activity ++
  date_string env (lastActivity s) ++ repo_prompt_recent.

(** The part of the prompt after the PR list. *)
Definition repo_prompt_footer (reportType : string) : string :=
  let reportTypeDescription :=
    if String.eqb reportType "client_overview" then "high-level client overview report"
    else "comprehensive MVP summary report for clients" in
  repo_prompt_generate ++ reportTypeDescription ++ repo_prompt_kind ++
  (if String.eqb reportType "mvp_summary" then repo_prompt_mvp_sections
   else repo_prompt_overview_sections) ++ repo_prompt_close.

(** The user prompt of [generateRepositoryReportContent]. *)
Definition repo_user_prompt (data : RepositoryReportInput) (reportType : string) : string :=
  repo_prompt_header data ++
  join_empty (map render_repo_pr (firstn 10 (rri_pullRequests data))) ++
  repo_prompt_footer reportType.

End RepositoryPrompt.

End Prompts.

(** ** Services and route handlers (services/*.ts, routes.ts) *)
Module Server.
Import JsString Model Storage Prompts.

Section WithEnv.
Variable env : Env.

(** [`${error}`] for the values the code throws. *)
Definition show_exn (e : Exn) : string :=
  match e with
  | JsError m => "Error: " ++ m
  | UniqueViolation c => "error: duplicate key value violates unique constraint " ++ c
  | TypeError m => "TypeError: " ++ m
  | SyntaxError m => "SyntaxError: " ++ m
  end.

(** *** GitHubService *)

(** [makeRequest(token, url)] *)
Definition makeRequest (token url : string) : M (option Json) :=
  let accept := "application/vnd.github.v3+json" in
  _ <- emit (GitHubFetch token url accept) ;;
  let response := host env token url accept in
  if negb (response_ok response)
  then throw (JsError ("GitHub API error: " ++ Z_to_string (http_status response) ++
                       " " ++ statusText response))
  else match json_body response with
       | Some j => ret (Some j)
       | None => throw (SyntaxError (json_error env (text_body response)))
       end.

(** [validateRepository(token, fullName)] *)
Definition validateRepository (token fullName' : string) : M bool :=
  try_catch
    (_ <- makeRequest token ("https://api.github.com/repos/" ++ fullName') ;; ret true)
    (fun _ => _ <- emit (ConsoleError "Repository validation failed:") ;; ret false).

Definition is_some {A} (o : option A) : bool :=
  match o with Some _ => true | None => false end.

(** [determineReviewStatus(pr)] *)
Definition determineReviewStatus (pr : GitHubPR) : string :=
  if String.eqb (state pr) "closed" && negb (is_some (merged_at pr)) then "closed"
  else if is_some (merged_at pr) then "merged"
  else if Nat.ltb 0 (review_comments pr) then "changes_requested"
  else "pending".

Definition sync_one (repositoryId' : string) (pr : GitHubPR) : M unit :=
  existingPR <- getPullRequestByGithubId (gh_id pr) ;;
  let prData := mkInsertPullRequest repositoryId' (gh_number pr) (gh_title pr)
                  (login pr) (Some (avatar_url pr)) (state pr)
                  (Some (determineReviewStatus pr)) (created_at pr) (updated_at pr)
                  (merged_at pr) None (gh_id pr) in
  match existingPR with
  | Some e => _ <- updatePullRequest (pr_id e) prData ;; ret tt
  | None => _ <- createPullRequest prData ;; ret tt
  end.

(** [syncPullRequests(repositoryId, token, fullName)]: the list answer must be
    an array for the [for ... of] loop. *)
Definition syncPullRequests (repositoryId' token fullName' : string) : M unit :=
  try_catch
    (prs <- makeRequest token ("https://api.github.com/repos/" ++ fullName' ++
              "/pulls?state=all&sort=updated&direction=desc&per_page=50") ;;
     match prs with
     | Some (JPulls l) => iter_m (sync_one repositoryId') l
     | _ => throw (TypeError "prs is not iterable")
     end)
    (fun e => _ <- emit (ConsoleError "Error syncing pull requests:") ;; throw e).

Definition sum_Z (l : list Z) : Z := fold_left Z.add l 0%Z.

(** [getPullRequestDetails(token, fullName, number)]: two [makeRequest]s and a
    raw [fetch] of the diff whose status is not inspected.  A JSON answer of
    an unexpected shape is a [TypeError] (e.g. [files.reduce] on a
    non-array). *)
Definition getPullRequestDetails (token fullName' : string) (number' : Z) : M GitHubPRDetails :=
  let pr_url := "https://api.github.com/repos/" ++ fullName' ++ "/pulls/" ++ Z_to_string number' in
  try_catch
    (pr <- makeRequest token pr_url ;;
     files' <- makeRequest token (pr_url ++ "/files") ;;
     let diff_accept := "application/vnd.github.v3.diff" in
     _ <- emit (GitHubFetch token pr_url diff_accept) ;;
     let diffContent := text_body (host env token pr_url diff_accept) in
     match pr, files' with
     | Some (JPull p), Some (JFiles fs) =>
         ret (mkDetails p (mkChanges (Some (sum_Z (map file_additions fs)))
                                     (Some (sum_Z (map file_deletions fs)))
                                     (Some (Z.of_nat (List.length fs))) fs
                                     (Some diffContent)))
     | _, _ => throw (TypeError "files.reduce is not a function")
     end)
    (fun e => _ <- emit (ConsoleError "Error getting PR details:") ;; throw e).

(** *** GeminiService *)

Definition call_gemini (systemInstruction contents : string) : M (option string) :=
  _ <- emit (GeminiRequest systemInstruction contents) ;;
  ret (gemini_text env systemInstruction contents).

(** [if (!rawJson) throw ...; JSON.parse(rawJson)] *)
Definition parse_content_reply (raw : option string) : M Pdf.ReportContent :=
  match raw with
  | None => throw (JsError "Empty response from Gemini")
  | Some s =>
      if String.eqb s EmptyString then throw (JsError "Empty response from Gemini")
      else match parse_report_content env s with
           | Some c => ret c
           | None => throw (SyntaxError (json_error env s))
           end
  end.

(** [generateReportContent(prDetails, audienceType, template?)] *)
Definition generateReportContent (d : GitHubPRDetails) (audienceType' : string)
    (template : option ReportTemplate) : M Pdf.ReportContent :=
  try_catch
    (let sys := match template with
                | Some t => getSystemPromptFromTemplate t
                | None => getSystemPromptForAudience audienceType'
                end in
     raw <- call_gemini sys (pr_user_prompt d) ;;
     parse_content_reply raw)
    (fun e => _ <- emit (ConsoleError "Error generating report content:") ;;
              throw (JsError ("Failed to generate report content: " ++ show_exn e))).

Definition insight_files_changed (c : option Changes) : string :=
  match c with
  | Some ch => if (100 <? changes_json_length env ch)%Z then "Multiple files" else "Few files"
  | None => "Unknown"
  end.

Definition render_insight_pr (pr : PullRequest) : string :=
  "
PR #" ++ Z_to_string (number pr) ++ ": " ++ pr_title pr ++ "
- Status: " ++ status pr ++ "
- Author: " ++ authorName pr ++ "
- Files changed: " ++ insight_files_changed (pr_changes pr) ++ "
".

Definition insights_prompt (prSummary : string) : string :=
  "
Analyze these recent pull requests and provide insights:

" ++ prSummary ++ "

Generate insights that will help the development team improve code quality and catch potential issues.
".

(** [generateInsights(pullRequests)] *)
Definition generateInsights (prs : list PullRequest) : M (list InsightData) :=
  try_catch
    (if Nat.eqb (List.length prs) 0 then ret []
     else
       let prSummary := join (String "010" EmptyString) (map render_insight_pr (firstn 10 prs)) in
       raw <- call_gemini insights_system_prompt (insights_prompt prSummary) ;;
       match raw with
       | None => throw (JsError "Empty response from Gemini")
       | Some s =>
           if String.eqb s EmptyString then throw (JsError "Empty response from Gemini")
           else match parse_insights env s with
                | None => throw (SyntaxError (json_error env s))
                | Some (Some l) => ret l
                | Some None => ret []
                end
       end)
    (fun e => _ <- emit (ConsoleError "Error generating insights:") ;;
              throw (JsError ("Failed to generate insights: " ++ show_exn e))).

(** [generateRepositoryReportContent(repositoryData, reportType, template?)] *)
Definition generateRepositoryReportContent (data : RepositoryReportInput)
    (reportType' : string) (template : option ReportTemplate) : M Pdf.ReportContent :=
  try_catch
    (let sys := match template with
                | Some t =>
                    match systemPrompt t with
                    | Some p => if String.eqb p EmptyString
                                then getRepositorySystemPrompt reportType' else p
                    | None => getRepositorySystemPrompt reportType'
                    end
                | None => getRepositorySystemPrompt reportType'
                end in
     raw <- call_gemini sys (repo_user_prompt env data reportType') ;;
     parse_content_reply raw)
    (fun e => _ <- emit (ConsoleError "Error generating repository report content:") ;;
              throw (JsError ("Failed to generate repository report content: " ++ show_exn e))).

(** *** PDFService.generatePDF *)
Definition generatePDF (reportId : string) (c : Pdf.ReportContent) (audienceType' : string) : M string :=
  let reportsDir := cwd env ++ "/reports" in
  let pdfFilepath := reportsDir ++ "/" ++ reportId ++ "-" ++ audienceType' ++ ".pdf" in
  let htmlFilepath := reportsDir ++ "/" ++ reportId ++ "-" ++ audienceType' ++ ".html" in
  let html := Pdf.generateHTMLReport c audienceType' (today env) in
  _ <- emit (WriteFile htmlFilepath html) ;;
  match browser_error env html pdfFilepath with
  | Some e => throw e
  | None => _ <- emit (BrowserPdf pdfFilepath) ;; ret pdfFilepath
  end.

End WithEnv.
End Server.

(** ** Route handlers (server/routes.ts) and the template page's delete
    handler (client/src/pages/reports.tsx) *)
Module Routes.
Import JsString Model Storage Prompts Server.

Definition nl : string := String "010" EmptyString.

(** A possibly absent string field used in a truthiness test. *)
Definition truthy (o : option string) : option string :=
  match o with
  | Some s => if String.eqb s EmptyString then None else Some s
  | None => None
  end.

(** [repository.githubToken] passed where a string is expected. *)
Definition token_str (o : option string) : string :=
  match o with Some t => t | None => "undefined" end.

Section WithEnv.
Variable env : Env.

(** The two synthetic pull requests seeded in demo mode. *)
Definition demoPRs (repositoryId' : string) (baseGithubId : Z) : list InsertPullRequest :=
  [ mkInsertPullRequest repositoryId' 101 "Add new authentication feature" "demo-user"
      (Some "https://github.com/demo-user.png") "open" (Some "pending")
      (now env) (now env) None
      (Some (mkChanges None None None
               [mkGhFile "auth.js" None 45 12
                  (Some ("@@ -1,3 +1,10 @@" ++ nl ++ "+// New authentication system" ++ nl ++
                         "+const auth = require('./auth-service');" ++ nl ++ "+" ++ nl ++
                         " export default function authenticate(req, res, next) {"))] None))
      (baseGithubId + 1);
    mkInsertPullRequest repositoryId' 102 "Fix bug in user dashboard" "demo-dev"
      (Some "https://github.com/demo-dev.png") "open" (Some "approved")
      (now env - 24 * 60 * 60 * 1000) (now env - 24 * 60 * 60 * 1000) None
      (Some (mkChanges None None None
               [mkGhFile "dashboard.jsx" None 8 3
                  (Some ("@@ -15,7 +15,7 @@ function Dashboard() {" ++ nl ++
                         "-  const [loading, setLoading] = useState(true);" ++ nl ++
                         "+  const [loading, setLoading] = useState(false);"))] None))
      (baseGithubId + 2) ]%Z.

Definition isDemoMode (v : InsertRepository) : bool :=
  String.eqb (ins_githubToken v) "demo" || String.eqb (ins_githubToken v) "test" ||
  includes "demo" (toLowerCase (ins_fullName v)).

(** POST /api/repositories, after [insertRepositorySchema.parse] succeeded. *)
Definition post_repositories (v : InsertRepository) : M Response :=
  try_catch
    (if isDemoMode v then
       _ <- emit (ConsoleLog "Demo mode: Creating repository without GitHub validation") ;;
       repository <- createRepository
                       (mkInsertRepository (ins_name v) (ins_fullName v) "demo-token-not-real"
                          (ins_defaultBranch v) (ins_autoGenerate v)) ;;
       let baseGithubId := random_base env in
       _ <- iter_m (fun pr => _ <- createPullRequest pr ;; ret tt)
                   (demoPRs (repo_id repository) baseGithubId) ;;
       ret (mkResponse 200 (BRepository repository))
     else
       isValid <- validateRepository env (ins_githubToken v) (ins_fullName v) ;;
       if negb isValid
       then ret (mkResponse 400 (BMessage "Invalid GitHub token or repository access"))
       else
         repository <- createRepository v ;;
         _ <- try_catch
                (syncPullRequests env (repo_id repository) (token_str (githubToken repository))
                   (fullName repository))
                (fun _ => emit (ConsoleError "Error syncing initial PRs:")) ;;
         ret (mkResponse 200 (BRepository repository)))
    (fun _ => _ <- emit (ConsoleError "Error creating repository:") ;;
              ret (mkResponse 500 (BMessage "Failed to create repository"))).

(** GET /api/repositories *)
Definition get_repositories : M Response :=
  try_catch
    (repos <- getRepositories ;; ret (mkResponse 200 (BRepositories repos)))
    (fun _ => _ <- emit (ConsoleError "Error fetching repositories:") ;;
              ret (mkResponse 500 (BMessage "Failed to fetch repositories"))).

Definition isDemoRepo (repository : Repository) : bool :=
  match githubToken repository with
  | Some t => String.eqb t "demo-token-not-real"
  | None => false
  end || includes "demo" (toLowerCase (fullName repository)) ||
  match githubToken repository with
  | Some t => String.eqb t "demo" || String.eqb t "test"
  | None => false
  end.

(** The mock changes used for a demo PR without a stored payload. *)
Definition demo_default_changes : Changes :=
  mkChanges (Some 25%Z) (Some 8%Z) (Some 3%Z)
    [ mkGhFile "src/auth/login.js" (Some "modified") 15 3
        (Some ("@@ -1,3 +1,10 @@" ++ nl ++ "+// Enhanced authentication system" ++ nl ++
               "+const bcrypt = require('bcrypt');" ++ nl ++ "+" ++ nl ++
               " export function validateLogin(username, password) {"));
      mkGhFile "src/components/Dashboard.jsx" (Some "modified") 8 2
        (Some ("@@ -15,7 +15,7 @@ function Dashboard() {" ++ nl ++
               "-  const [isLoading, setLoading] = useState(true);" ++ nl ++
               "+  const [isLoading, setLoading] = useState(false);"));
      mkGhFile "tests/auth.test.js" (Some "added") 2 3
        (Some ("@@ +1,12 @@" ++ nl ++ "+describe('Authentication', () => {" ++ nl ++
               "+  test('should validate user credentials', () => {" ++ nl ++
               "+    // Test implementation" ++ nl ++ "+  });" ++ nl ++ "+});")) ]
    (Some ("diff --git a/src/auth/login.js b/src/auth/login.js" ++ nl ++
           "index 1234567..abcdefg 100644" ++ nl ++ "--- a/src/auth/login.js" ++ nl ++
           "+++ b/src/auth/login.js" ++ nl ++ "@@ -1,3 +1,10 @@" ++ nl ++
           "+// Enhanced authentication system" ++ nl ++ "+const bcrypt = require('bcrypt');" ++ nl ++
           "+" ++ nl ++ " export function validateLogin(username, password) {" ++ nl ++
           "   // Authentication logic" ++ nl ++ " }"))%Z.

(** The mock [prDetails] of a demo repository. *)
Definition demo_details (repository : Repository) (pr : PullRequest) : GitHubPRDetails :=
  mkDetails
    (mkGitHubPR (if Z.eqb (githubId pr) 0%Z then 12345%Z else githubId pr) (number pr)
       (pr_title pr) (authorName pr)
       (match truthy (authorAvatar pr) with Some a => a | None => "https://github.com/demo-user.png" end)
       (status pr) (createdAt pr) (updatedAt pr) (mergedAt pr) 0%nat)
    (match pr_changes pr with Some c => c | None => demo_default_changes end).

(** The part of POST /api/pull-requests/:id/reports after the template
    checks: fetch, generate, store, render. *)
Definition generate_pr_report (prId : string) (pullRequest : PullRequest)
    (repository : Repository) (audienceType' : string)
    (template : option ReportTemplate) : M Response :=
  prDetails <- (if isDemoRepo repository then ret (inr (demo_details repository pullRequest))
                else match github_token_env env with
                     | None => ret (inl (mkResponse 500 (BMessage "GitHub token not configured")))
                     | Some githubToken' =>
                         d <- getPullRequestDetails env githubToken' (fullName repository)
                                (number pullRequest) ;;
                         ret (inr d)
                     end) ;;
  match prDetails with
  | inl early => ret early
  | inr d =>
      content <- generateReportContent env d audienceType' template ;;
      report <- createReport prId audienceType' content ;;
      pdfPath' <- generatePDF env (report_id report) content audienceType' ;;
      updatedReport <- updateReportPdfPath (report_id report) pdfPath' ;;
      ret (mkResponse 200 (BReport (match updatedReport with Some r => r | None => report end)))
  end.

(** POST /api/pull-requests/:id/reports with body [{ audienceType, templateId }]. *)
Definition post_pr_reports (prId audienceType' : string) (templateId : option string) : M Response :=
  try_catch
    (if negb (existsb (String.eqb audienceType') ["pm"; "qa"; "client"])
     then ret (mkResponse 400 (BMessage "Invalid audience type"))
     else
       pullRequest <- getPullRequest prId ;;
       match pullRequest with
       | None => ret (mkResponse 404 (BMessage "Pull request not found"))
       | Some pr =>
           repository <- getRepository (repositoryId pr) ;;
           match repository with
           | None => ret (mkResponse 404 (BMessage "Repository not found"))
           | Some repo =>
               match truthy templateId with
               | Some tid =>
                   template <- getReportTemplate tid ;;
                   match template with
                   | None => ret (mkResponse 404 (BMessage "Template not found"))
                   | Some t =>
                       if negb (String.eqb (audienceType t) audienceType')
                       then ret (mkResponse 400 (BMessage "Template audience type does not match request"))
                       else generate_pr_report prId pr repo audienceType' (Some t)
                   end
               | None => generate_pr_report prId pr repo audienceType' None
               end
           end
       end)
    (fun _ => _ <- emit (ConsoleError "Error generating report:") ;;
              ret (mkResponse 500 (BMessage "Failed to generate report"))).

(** DELETE /api/report-templates/:id *)
Definition delete_report_template (id : string) : M Response :=
  try_catch
    (success <- deleteReportTemplate id ;;
     if negb success then ret (mkResponse 404 (BMessage "Template not found"))
     else ret (mkResponse 204 BNoContent))
    (fun _ => _ <- emit (ConsoleError "Error deleting report template:") ;;
              ret (mkResponse 500 (BMessage "Failed to delete report template"))).

(** What the template page does when its delete handler runs. *)
Inductive UiOutcome :=
| Toast (title description : string)
| Sent (r : Response).

(** [handleDeleteTemplate(templateId)] of the template page: [templates] is
    the page's cached list. *)
Definition handleDeleteTemplate (templates : list ReportTemplate) (templateId : string) : M UiOutcome :=
  let template := find (fun t => String.eqb (tpl_id t) templateId) templates in
  match option_map isDefault template with
  | Some (Some true) => ret (Toast "Cannot delete" "Default templates cannot be deleted.")
  | _ => r <- delete_report_template templateId ;; ret (Sent r)
  end.

Definition count_status (s : string) (prs : list PullRequest) : Z :=
  Z.of_nat (List.length (filter (fun p => String.eqb (status p) s) prs)).

Definition summarize_pr (pr : PullRequest) : PrSummary :=
  mkPrSummary (number pr) (pr_title pr) (authorName pr) (status pr)
    (truthy (reviewStatus pr)) (createdAt pr) (updatedAt pr) (mergedAt pr).

(** [repositoryData] of POST /api/repositories/:id/reports. *)
Definition build_repository_data (repository : Repository) (prs : list PullRequest) : RepositoryReportInput :=
  mkRepositoryReportInput
    (mkRepoInfo (repo_name repository) (fullName repository) (Z.of_nat (List.length prs))
       (count_status "open" prs) (count_status "closed" prs) (count_status "merged" prs))
    (map summarize_pr prs)
    (mkRepoSummary (count_status "open" prs) (count_status "merged" prs)
       (Z.of_nat (List.length (nodup string_dec (map authorName prs))))
       (match prs with p :: _ => updatedAt p | [] => now env end)).

(** POST /api/repositories/:id/reports with body [{ reportType, title, templateId }]. *)
Definition post_repository_reports (repoId : string) (reportType' title' templateId : option string)
    : M Response :=
  let reportType'' := match reportType' with Some r => r | None => "mvp_summary" end in
  try_catch
    (repository <- getRepository repoId ;;
     match repository with
     | None => ret (mkResponse 404 (BMessage "Repository not found"))
     | Some repo =>
         prs <- getPullRequestsByRepository repoId ;;
         if Nat.eqb (List.length prs) 0
         then ret (mkResponse 400 (BMessage "No pull requests found for repository. Please sync the repository first."))
         else
           let repositoryData := build_repository_data repo prs in
           template <- (match truthy templateId with
                        | Some tid => getReportTemplate tid
                        | None => ret None
                        end) ;;
           content <- generateRepositoryReportContent env repositoryData reportType'' template ;;
           report <- createRepositoryReport repoId reportType''
                       (match truthy title' with
                        | Some t => t
                        | None => repo_name repo ++ " MVP Summary Report"
                        end) content templateId ;;
           pdfPath' <- generatePDF env (rr_id report) content "repository" ;;
           updatedReport <- updateRepositoryReportPdfPath (rr_id report) pdfPath' ;;
           ret (mkResponse 200 (BRepositoryReport
                  (match updatedReport with Some r => r | None => report end)))
     end)
    (fun _ => _ <- emit (ConsoleError "Error generating repository report:") ;;
              ret (mkResponse 500 (BMessage "Failed to generate repository report"))).

End WithEnv.
End Routes.

(** ** Further handlers of server/routes.ts and the storage calls they make *)
Module MoreRoutes.
Import JsString Model Storage Server Routes.

(** [deleteRepository(id)]: [db.delete(repositories).where(eq(id))] and
    [rowCount > 0].  The [repository_id] columns of [pull_requests] and
    [repository_reports] reference [repositories.id] with no [onDelete]
    action, so the database refuses to delete a row they still reference.
    (The [insights] table, which references it as well, is not part of this
    store.) *)
Definition deleteRepository (id : string) : M bool :=
  d <- get_db ;;
  match find_repository id d with
  | None => ret false
  | Some _ =>
      if existsb (fun p => String.eqb (repositoryId p) id) (pullRequests d) ||
         existsb (fun r => String.eqb (rr_repositoryId r) id) (repositoryReports d)
      then throw (JsError "update or delete on table repositories violates foreign key constraint")
      else
        _ <- put_db (set_repositories d
                       (filter (fun r => negb (String.eqb (repo_id r) id)) (repositories d))) ;;
        ret true
  end.

(** DELETE /api/repositories/:id *)
Definition delete_repository (id : string) : M Response :=
  try_catch
    (deleted <- deleteRepository id ;;
     if negb deleted then ret (mkResponse 404 (BMessage "Repository not found"))
     else ret (mkResponse 200 BSuccess))
    (fun _ => _ <- emit (ConsoleError "Error deleting repository:") ;;
              ret (mkResponse 500 (BMessage "Failed to delete repository"))).

Section WithEnv.
Variable env : Env.

(** POST /api/repositories/:id/sync: the repository is read through
    [getRepository], whose row has no [githubToken] field, and
    [repository.githubToken] is handed to [syncPullRequests]. *)
Definition post_sync (id : string) : M Response :=
  try_catch
    (repository <- getRepository id ;;
     match repository with
     | None => ret (mkResponse 404 (BMessage "Repository not found"))
     | Some repo =>
         _ <- syncPullRequests env (repo_id repo) (token_str (githubToken repo)) (fullName repo) ;;
         ret (mkResponse 200 BSuccess)
     end)
    (fun _ => _ <- emit (ConsoleError "Error syncing pull requests:") ;;
              ret (mkResponse 500 (BMessage "Failed to sync pull requests"))).

End WithEnv.

(** [getStatistics()] *)
Record Statistics := mkStatistics {
  activePRs : Z;
  reportsGenerated : Z;
  connectedRepos : Z;
  testScenariosGenerated : Z
}.

Definition getStatistics : M Statistics :=
  d <- get_db ;;
  ret (mkStatistics
         (Z.of_nat (List.length (filter (fun p => String.eqb (status p) "open") (pullRequests d))))
         (Z.of_nat (List.length (reports d)))
         (Z.of_nat (List.length (repositories d)))
         (Z.of_nat (List.length (filter (fun r => String.eqb (report_audience r) "qa") (reports d))) * 5)%Z).

End MoreRoutes.

(** ** Concrete inputs used by the examples below *)
Module Samples.
Import JsString Model Routes.

Definition report_with_emoji : Pdf.ReportContent :=
  Pdf.mkContent "📋 Release plan" "Ready 💡"
    [Pdf.mkSection "🎯 Goals" "Ship ✅" (Some ["⚠️ check migrations"])]
    (Some ["⭐ keep it"]) (Some ["🚨 rollback"]).

Definition repo_url : string := "https://api.github.com/repos/acme/widgets".
Definition pulls_url : string :=
  repo_url ++ "/pulls?state=all&sort=updated&direction=desc&per_page=50".
Definition pr7_url : string := repo_url ++ "/pulls/7".

Definition http (code : Z) (text : string) (j : option Json) : HttpResponse :=
  mkHttpResponse code text j EmptyString.

Definition sample_env (h : string -> string -> string -> HttpResponse) : Env :=
  mkEnv h (fun _ _ => None) (fun _ => None) (fun _ => None)
    (fun _ => "Unexpected end of JSON input") (fun _ _ => None)
    4242 1760000000000 "10/19/2026" (fun _ => "1/1/2026")
    (fun _ => "Thu Jan 01 2026 00:00:00 GMT+0000") None "/srv/app" (fun _ => 0%Z).

(** GitHub accepts the token for acme/widgets and lists no pull request. *)
Definition env_ok : Env :=
  sample_env (fun _ url _ =>
    if String.eqb url repo_url then http 200 "OK" (Some JRepoInfo)
    else if String.eqb url pulls_url then http 200 "OK" (Some (JPulls []))
    else http 404 "Not Found" (Some JOther)).

(** GitHub accepts the token but the pull-request listing fails. *)
Definition env_sync_fails : Env :=
  sample_env (fun _ url _ =>
    if String.eqb url repo_url then http 200 "OK" (Some JRepoInfo)
    else http 502 "Bad Gateway" None).

(** GitHub answers every request with the given status. *)
Definition env_status (code : Z) (text : string) : Env :=
  sample_env (fun _ _ _ => http code text (Some JOther)).

Definition empty_world : World := mkWorld (mkDB [] [] [] [] []) [] 0.

Definition widgets_request (token : string) : InsertRepository :=
  mkInsertRepository "widgets" "acme/widgets" token None None.

Definition demo_request : InsertRepository :=
  mkInsertRepository "demo app" "acme/demo-app" "demo" None None.

Definition widgets_repo : Repository :=
  mkRepository "repo-1" "widgets" "acme/widgets" (Some "ghp_live") (Some "main") (Some true).

Definition pr_1 : PullRequest :=
  mkPullRequest "pr-1" "repo-1" 7 "Add login" "alice" None "open" None 10 20 None None 1007.

Definition qa_template : ReportTemplate :=
  mkReportTemplate "tpl-qa" "QA checklist" "qa" (Some "You are a QA lead.") (Some false).

Definition default_pm_template : ReportTemplate :=
  mkReportTemplate "tpl-pm-default" "Project Manager Report" "pm" None (Some true).

(** A store with one repository, one pull request and two templates. *)
Definition sample_world : World :=
  mkWorld (mkDB [widgets_repo] [pr_1] [] [qa_template; default_pm_template] []) [] 0.

(** A store that already holds the demo repository's full name. *)
Definition world_with_demo_repo : World :=
  mkWorld (mkDB [mkRepository "repo-9" "demo app" "acme/demo-app" (Some "demo-token-not-real")
                  (Some "main") (Some true)] [] [] [] []) [] 0.

Definition mk_pr (id author st : string) (upd : Z) : PullRequest :=
  mkPullRequest id "repo-1" upd ("PR " ++ id) author None st None upd upd None None upd.

(** Twelve pull requests of repo-1 stored in no particular order, and one of
    another repository. *)
Definition many_prs_world : World :=
  mkWorld (mkDB [widgets_repo]
    [mk_pr "a" "alice" "open" 5; mk_pr "b" "bob" "merged" 12; mk_pr "c" "alice" "closed" 1;
     mk_pr "d" "carol" "open" 9; mk_pr "e" "bob" "open" 3; mk_pr "f" "dave" "merged" 11;
     mk_pr "g" "alice" "open" 7; mk_pr "h" "erin" "open" 2; mk_pr "i" "bob" "open" 10;
     mk_pr "j" "carol" "merged" 4; mk_pr "k" "alice" "open" 8; mk_pr "l" "frank" "open" 6;
     mkPullRequest "z" "repo-2" 99 "Other" "zed" None "open" None 50 50 None None 99]
    [] [] []) [] 0.



(** A repository created in demo mode (token "test") under a full name
    without "demo". *)
Definition demo_token_repo : Repository :=
  mkRepository "repo-1" "widgets" "acme/widgets" (Some "demo-token-not-real") (Some "main") (Some true).

Definition demo_repo : Repository :=
  mkRepository "repo-9" "demo app" "acme/demo-app" (Some "demo-token-not-real") (Some "main") (Some true).

Definition demo_pr : PullRequest :=
  mkPullRequest "pr-9" "repo-9" 101 "Add new authentication feature" "demo-user"
    (Some "https://github.com/demo-user.png") "open" (Some "pending") 10 10 None None 4243.

Definition demo_world : World := mkWorld (mkDB [demo_repo] [demo_pr] [] [] []) [] 0.

(** Gemini answers, the answer parses and the browser renders; GitHub
    answers every request with an error. *)
Definition env_generates : Env :=
  mkEnv (fun _ _ _ => http 500 "Internal Server Error" None) (fun _ _ => Some "{}")
    (fun _ => Some report_with_emoji) (fun _ => None)
    (fun _ => "Unexpected end of JSON input") (fun _ _ => None)
    4242 1760000000000 "10/19/2026" (fun _ => "1/1/2026")
    (fun _ => "Thu Jan 01 2026 00:00:00 GMT+0000") None "/srv/app" (fun _ => 0%Z).

End Samples.

(** ** Notions used by the statements below *)
Module Specs.
Import JsString Model Storage.

(** The error [makeRequest] throws for a non-2xx answer. *)
Definition github_error (r : HttpResponse) : Exn :=
  JsError ("GitHub API error: " ++ Z_to_string (http_status r) ++ " " ++ statusText r).

(** The Accept header of [makeRequest]. *)
Definition json_accept : string := "application/vnd.github.v3+json".

(** [m] leaves the repositories table as it found it. *)
Definition keeps_repos {A} (m : M A) : Prop :=
  forall w, repositories (db (snd (m w))) = repositories (db w).

(** [p] was updated no earlier than [q]. *)
Definition newer_or_equal (p q : PullRequest) : Prop := (updatedAt q <= updatedAt p)%Z.

(** [m] leaves the effect trace as it found it. *)
Definition keeps_trace {A} (m : M A) : Prop :=
  forall w, trace (snd (m w)) = trace w.

(** [m] keeps the property [P] of the world. *)
Definition preserves (P : World -> Prop) {A} (m : M A) : Prop :=
  forall w, P w -> P (snd (m w)).

(** No two stored repositories share a full name. *)
Definition unique_full_names (w : World) : Prop :=
  NoDup (map fullName (repositories (db w))).

(** Every byte of [s] is below 128. *)
Fixpoint ascii_only (s : string) : bool :=
  match s with
  | EmptyString => true
  | String c s' => (nat_of_ascii c <? 128)%nat && ascii_only s'
  end.

End Specs.

(** * Proofs *)
Module Proofs.
Import JsString Model Storage Prompts Server Routes MoreRoutes Samples Specs.

(** ** Strings *)

Lemma append_cancel_l (s x y : string) : s ++ x = s ++ y -> x = y.
Proof.
  induction s as [|c s IH]; simpl; [auto|].
  intros H; injection H; exact IH.
Qed.

Lemma append_length_str (x y : string) :
  String.length (x ++ y) = String.length x + String.length y.
Proof. induction x; simpl; congruence. Qed.

Lemma append_cancel_r (s x y : string) : x ++ s = y ++ s -> x = y.
Proof.
  revert y. induction x as [|c x IH]; intros [|c' y] H; simpl in *; auto.
  - apply (f_equal String.length) in H. simpl in H.
    rewrite append_length_str in H. lia.
  - apply (f_equal String.length) in H. simpl in H.
    rewrite append_length_str in H. lia.
  - injection H as -> H. f_equal. now apply IH.
Qed.

(** The rendered page determines the date string of its footer: everything
    before it depends on the content and audience only. *)
Lemma generateHTMLReport_today_inj c a d1 d2 :
  Pdf.generateHTMLReport c a d1 = Pdf.generateHTMLReport c a d2 -> d1 = d2.
Proof.
  unfold Pdf.generateHTMLReport. cbv zeta. intros H.
  repeat (apply append_cancel_l in H).
  exact (append_cancel_r _ _ _ H).
Qed.

(** ** C1 *)

(** C1 (amended): the HTML is a function of the content, the audience and the
    locale date string of the render day; two renders of the same content and
    audience are byte-identical exactly when they happen on days with the same
    date string. *)
Theorem C1_html_identical_iff_same_date (c : Pdf.ReportContent) (a d1 d2 : string) :
  Pdf.generateHTMLReport c a d1 = Pdf.generateHTMLReport c a d2 <-> d1 = d2.
Proof.
  split.
  - apply generateHTMLReport_today_inj.
  - intros ->. reflexivity.
Qed.

(** C1 (counterexample): the same content and audience rendered on
    10/19/2026 and on 10/20/2026 give different HTML. *)
Lemma C1_render_differs_next_day :
  Pdf.generateHTMLReport report_with_emoji "pm" "10/19/2026" <>
  Pdf.generateHTMLReport report_with_emoji "pm" "10/20/2026".
Proof.
  intros H. apply generateHTMLReport_today_inj in H. discriminate H.
Qed.

(** ** C4 *)

(** C4 (code_bug): [cleanContent] removes the clipboard glyph from the title,
    but the [<title>] element interpolates [content.title], so the rendered
    page still contains the clipboard glyph. *)
Theorem C4_title_element_keeps_glyph :
  includes "📋" (Pdf.title (Pdf.cleanContent report_with_emoji)) = false /\
  includes "📋" (Pdf.generateHTMLReport report_with_emoji "pm" "10/19/2026") = true.
Proof. split; vm_compute; reflexivity. Qed.

(** ** C10 *)

(** C10: on the empty pull-request list, [generateInsights] returns the empty
    list and leaves the world untouched, so no request reaches Gemini. *)
Theorem C10_generateInsights_empty (env : Env) (w : World) :
  generateInsights env [] w = (inr [], w).
Proof. reflexivity. Qed.

(** ** C2 *)

(** C2 (amended): when the request names a stored template whose audience
    differs from the requested one, the handler returns before any effect
    (no Gemini request, no report row, the world is unchanged) with a 400 or a
    404 answer; it is the 400 "Template audience type does not match request"
    whenever the audience is valid and the pull request and its repository
    exist. *)
Theorem C2_template_mismatch_rejected (env : Env) (w : World) (prId a tid : string)
    (t : ReportTemplate)
    (Htid : tid <> EmptyString)
    (Ht : find (fun t => String.eqb (tpl_id t) tid) (reportTemplates (db w)) = Some t)
    (Ha : audienceType t <> a) :
  snd (post_pr_reports env prId a (Some tid) w) = w /\
  (exists r, fst (post_pr_reports env prId a (Some tid) w) = inr r /\
             (status_code r = 400 \/ status_code r = 404)%Z) /\
  (forall pr repo,
     In a ["pm"; "qa"; "client"] ->
     find (fun p => String.eqb (pr_id p) prId) (pullRequests (db w)) = Some pr ->
     find_repository (repositoryId pr) (db w) = Some repo ->
     fst (post_pr_reports env prId a (Some tid) w) =
       inr (mkResponse 400 (BMessage "Template audience type does not match request"))).
Proof.
  assert (Htr : truthy (Some tid) = Some tid).
  { unfold truthy. destruct (String.eqb_spec tid EmptyString); congruence. }
  assert (Heq : String.eqb (audienceType t) a = false) by (apply String.eqb_neq; exact Ha).
  unfold post_pr_reports, try_catch, bind, ret, getPullRequest, getRepository,
    getReportTemplate, get_db.
  destruct (existsb (String.eqb a) ["pm"; "qa"; "client"]) eqn:Hv.
  - cbn -[generate_pr_report truthy find find_repository].
    destruct (find (fun p => String.eqb (pr_id p) prId) (pullRequests (db w))) as [pr|] eqn:Hpr;
      cbn -[generate_pr_report truthy find find_repository].
    + destruct (find_repository (repositoryId pr) (db w)) as [repo|] eqn:Hrepo;
        cbn -[generate_pr_report truthy find find_repository].
      * rewrite Htr; cbn -[generate_pr_report truthy find find_repository]. rewrite Ht, Heq; cbn -[generate_pr_report truthy find find_repository].
        split; [reflexivity|split].
        -- eexists; split; [reflexivity|left; reflexivity].
        -- intros; reflexivity.
      * split; [reflexivity|split].
        -- eexists; split; [reflexivity|right; reflexivity].
        -- intros pr' repo' _ Hpr' Hrepo'. injection Hpr' as <-. rewrite Hrepo in Hrepo'. discriminate Hrepo'.
    + split; [reflexivity|split].
      * eexists; split; [reflexivity|right; reflexivity].
      * intros pr' repo' _ Hpr'. discriminate Hpr'.
  - cbn -[generate_pr_report truthy find find_repository]. split; [reflexivity|split].
    + eexists; split; [reflexivity|left; reflexivity].
    + intros pr repo Hin. exfalso.
      assert (existsb (String.eqb a) ["pm"; "qa"; "client"] = true) as Hc.
      { apply existsb_exists. exists a. split; [exact Hin|apply String.eqb_refl]. }
      congruence.
Qed.

(** Witness of C2: the QA template named by a PM request for pr-1. *)
Lemma C2_witness :
  ("tpl-qa" <> EmptyString /\
   find (fun t => String.eqb (tpl_id t) "tpl-qa") (reportTemplates (db sample_world)) = Some qa_template /\
   audienceType qa_template <> "pm") /\
  fst (post_pr_reports env_ok "pr-1" "pm" (Some "tpl-qa") sample_world) =
    inr (mkResponse 400 (BMessage "Template audience type does not match request")).
Proof.
  split; [split; [discriminate|split; [reflexivity|discriminate]]|].
  apply (proj2 (proj2 (C2_template_mismatch_rejected env_ok sample_world "pr-1" "pm" "tpl-qa"
           qa_template ltac:(discriminate) eq_refl ltac:(discriminate))) pr_1 widgets_repo);
    [simpl; auto|reflexivity|reflexivity].
Defined.

(** C2 (counterexample): a PM request naming the QA template for a pull
    request that is not stored is answered 404, not 400. *)
Lemma C2_missing_pr_answers_404 :
  find (fun t => String.eqb (tpl_id t) "tpl-qa") (reportTemplates (db sample_world)) = Some qa_template /\
  audienceType qa_template <> "pm" /\
  fst (post_pr_reports env_ok "pr-missing" "pm" (Some "tpl-qa") sample_world) =
    inr (mkResponse 404 (BMessage "Pull request not found")).
Proof. split; [reflexivity|split; [discriminate|vm_compute; reflexivity]]. Qed.

(*C35*)

(** ** C3 *)

(** C3 (code bug): the POST /api/repositories answer is the row
    [createRepository] returned, token included, while GET /api/repositories
    lists the same repository with the token stripped by [sanitize]. *)
Theorem C3_post_response_carries_token :
  fst (post_repositories env_ok (widgets_request "ghp_secret") empty_world) =
    inr (mkResponse 200 (BRepository
      (mkRepository "uuid-0" "widgets" "acme/widgets" (Some "ghp_secret") (Some "main") (Some true)))) /\
  fst (get_repositories (snd (post_repositories env_ok (widgets_request "ghp_secret") empty_world))) =
    inr (mkResponse 200 (BRepositories
      [mkRepository "uuid-0" "widgets" "acme/widgets" None None None])).
Proof. split; vm_compute; reflexivity. Qed.

(** ** C5 *)

Lemma filter_drops_length {A} (f : A -> bool) (l : list A) (x : A) :
  In x l -> f x = false -> (List.length (filter f l) < List.length l)%nat.
Proof.
  induction l as [|y l IH]; simpl; [tauto|].
  intros [<-|Hin] Hf.
  - rewrite Hf. pose proof (filter_length_le f l). lia.
  - destruct (f y); simpl; specialize (IH Hin Hf); lia.
Qed.

(** C5 (amended): DELETE /api/report-templates/:id removes any stored
    template, default or not, answering 204 with no other effect; only the
    template page's handler refuses a template its cached list marks as
    default, with a toast and without sending the request. *)
Theorem C5_delete_removes_any_template (w : World) (t : ReportTemplate) (id : string)
    (Hin : In t (reportTemplates (db w))) (Hid : tpl_id t = id) :
  fst (delete_report_template id w) = inr (mkResponse 204 BNoContent) /\
  (forall t', In t' (reportTemplates (db (snd (delete_report_template id w)))) -> tpl_id t' <> id) /\
  trace (snd (delete_report_template id w)) = trace w /\
  (forall templates, find (fun t => String.eqb (tpl_id t) id) templates = Some t ->
     isDefault t = Some true ->
     handleDeleteTemplate templates id w =
       (inr (Toast "Cannot delete" "Default templates cannot be deleted."), w)).
Proof.
  assert (Hlt : Nat.ltb (List.length (filter (fun t => negb (String.eqb (tpl_id t) id))
                                              (reportTemplates (db w))))
                        (List.length (reportTemplates (db w))) = true).
  { apply Nat.ltb_lt. apply (filter_drops_length _ _ t Hin).
    rewrite Hid, String.eqb_refl. reflexivity. }
  unfold delete_report_template, deleteReportTemplate, try_catch, bind, ret, get_db, put_db.
  cbn -[filter Nat.ltb List.length]. rewrite Hlt. cbn -[filter Nat.ltb List.length].
  split; [reflexivity|split; [|split; [reflexivity|]]].
  - intros t' Ht'. apply filter_In in Ht'. destruct Ht' as [_ Hb].
    intros Heq. rewrite Heq, String.eqb_refl in Hb. discriminate.
  - intros templates Hf Hd. unfold handleDeleteTemplate. rewrite Hf. simpl. rewrite Hd. reflexivity.
Qed.

(** Witness of C5: the default PM template of [sample_world]. *)
Lemma C5_witness :
  (In default_pm_template (reportTemplates (db sample_world)) /\ tpl_id default_pm_template = "tpl-pm-default") /\
  fst (delete_report_template "tpl-pm-default" sample_world) = inr (mkResponse 204 BNoContent).
Proof.
  split; [split; [simpl; auto|reflexivity]|].
  apply (proj1 (C5_delete_removes_any_template sample_world default_pm_template "tpl-pm-default"
                  ltac:(simpl; auto) eq_refl)).
Defined.

(** C5 (counterexample): deleting the default PM template answers 204 and
    the template is gone from the store. *)
Lemma C5_default_template_deleted :
  isDefault default_pm_template = Some true /\
  fst (delete_report_template "tpl-pm-default" sample_world) = inr (mkResponse 204 BNoContent) /\
  ~ In default_pm_template (reportTemplates (db (snd (delete_report_template "tpl-pm-default" sample_world)))).
Proof.
  split; [reflexivity|split; [vm_compute; reflexivity|]].
  vm_compute. intros [H|[]]. discriminate H.
Qed.

(*C6*)

(** ** C6 *)

Lemma isDemoMode_demo (v : InsertRepository) : ins_githubToken v = "demo" -> isDemoMode v = true.
Proof. intros H. unfold isDemoMode. rewrite H. reflexivity. Qed.

Lemma existsb_app1 {A} (f : A -> bool) (l : list A) (x : A) :
  existsb f (l ++ [x])%list = existsb f l || f x.
Proof. rewrite existsb_app. simpl. rewrite orb_false_r. reflexivity. Qed.


Ltac prefix_of X t :=
  lazymatch X with
  | t => constr:(@nil Event)
  | ?e :: ?r => let p := prefix_of r t in constr:(e :: p)
  end.

Ltac red_w :=
  cbn [db trace next_uuid repositories pullRequests reports reportTemplates repositoryReports
    fst snd ins_name ins_fullName ins_githubToken ins_defaultBranch ins_autoGenerate
    repo_id ipr_repositoryId ipr_githubId githubId repositoryId row_of_insert].

Ltac trace_prefix :=
  red_w;
  lazymatch goal with
  | |- exists evs, ?X = (evs ++ trace ?w)%list /\ _ =>
      let p := prefix_of X (trace w) in exists p; split; reflexivity
  end.

(** C6 (amended): a creation request whose token is "demo" never reaches
    GitHub (every event it adds is a log line). When, moreover, the full
    name and the two seeded GitHub ids are free, the request succeeds: it
    answers 200 with the created repository, which is appended to the stored
    repositories and carries the request's name and full name and the token
    "demo-token-not-real", and it appends two pull requests of that
    repository whose GitHub ids are [random_base + 1] and [random_base + 2]. *)
Theorem C6_demo_creation (env : Env) (v : InsertRepository) (w : World)
    (Hdemo : ins_githubToken v = "demo") :
  (exists evs, trace (snd (post_repositories env v w)) = (evs ++ trace w)%list /\
               forallb (fun e => negb (is_github_fetch e)) evs = true) /\
  (existsb (fun r => String.eqb (fullName r) (ins_fullName v)) (repositories (db w)) = false ->
   existsb (fun p => Z.eqb (githubId p) (random_base env + 1)) (pullRequests (db w)) = false ->
   existsb (fun p => Z.eqb (githubId p) (random_base env + 2)) (pullRequests (db w)) = false ->
   exists repo p1 p2,
     fst (post_repositories env v w) = inr (mkResponse 200 (BRepository repo)) /\
     repositories (db (snd (post_repositories env v w))) = (repositories (db w) ++ [repo])%list /\
     repo_name repo = ins_name v /\ fullName repo = ins_fullName v /\
     githubToken repo = Some "demo-token-not-real" /\
     pullRequests (db (snd (post_repositories env v w))) = (pullRequests (db w) ++ [p1; p2])%list /\
     repositoryId p1 = repo_id repo /\ repositoryId p2 = repo_id repo /\
     githubId p1 = (random_base env + 1)%Z /\ githubId p2 = (random_base env + 2)%Z /\
     githubId p1 <> githubId p2).
Proof.
  unfold post_repositories. rewrite (isDemoMode_demo v Hdemo).
  cbv beta iota zeta delta [try_catch bind ret emit createRepository createPullRequest get_db
    put_db throw fresh_id iter_m demoPRs set_repositories set_pullRequests].
  red_w.
  destruct (existsb _ (repositories (db w))) eqn:Hr.
  - split; [trace_prefix|discriminate].
  - red_w. destruct (existsb _ (pullRequests (db w))) eqn:Hp1; red_w.
    + split; [trace_prefix|discriminate].
    + destruct (existsb _ (pullRequests (db w) ++ _)%list) eqn:Hp2; red_w.
      * split; [trace_prefix|]. intros _ _ H2. exfalso.
        rewrite existsb_app1, H2 in Hp2. cbn in Hp2.
        apply Z.eqb_eq in Hp2. lia.
      * split; [trace_prefix|]. intros _ _ _.
        do 3 eexists. split; [reflexivity|].
        split; [reflexivity|].
        split; [reflexivity|]. split; [reflexivity|]. split; [reflexivity|].
        split; [rewrite <- app_assoc; reflexivity|].
        repeat split; try reflexivity; red_w; lia.
Qed.

(*C7*)



(** Witness of C6: the demo request on [sample_world], which already holds
    acme/widgets and one pull request: the request succeeds, adds the
    repository after acme/widgets and two pull requests after the stored
    one. *)
Lemma C6_witness :
  ins_githubToken demo_request = "demo" /\
  exists repo p1 p2,
    fst (post_repositories env_ok demo_request sample_world) = inr (mkResponse 200 (BRepository repo)) /\
    repositories (db (snd (post_repositories env_ok demo_request sample_world))) = [widgets_repo; repo] /\
    fullName repo = "acme/demo-app" /\
    pullRequests (db (snd (post_repositories env_ok demo_request sample_world))) = [pr_1; p1; p2] /\
    githubId p1 = 4243%Z /\ githubId p2 = 4244%Z.
Proof.
  split; [reflexivity|].
  destruct (proj2 (C6_demo_creation env_ok demo_request sample_world eq_refl) eq_refl eq_refl eq_refl)
    as (repo & p1 & p2 & H1 & H2 & _ & H4 & _ & H6 & _ & _ & H9 & H10 & _).
  exists repo, p1, p2.
  split; [exact H1|]. split; [exact H2|]. split; [exact H4|]. split; [exact H6|].
  split; [exact H9|exact H10].
Defined.

(** C6 (counterexample): a demo request whose full name is already stored
    answers 500 "Failed to create repository". *)
Lemma C6_demo_name_taken_fails :
  ins_githubToken demo_request = "demo" /\
  fst (post_repositories env_ok demo_request world_with_demo_repo) =
    inr (mkResponse 500 (BMessage "Failed to create repository")).
Proof. split; [reflexivity|vm_compute; reflexivity]. Qed.

(** ** C7 *)

(** C7 (amended): when the PR request or the files request gets a non-2xx
    answer, [getPullRequestDetails] fails with the one generic error
    "GitHub API error: <status> <statusText>" for that answer, rethrown
    unchanged after a log line, and each URL was requested exactly once. *)
Theorem C7_details_failure_is_generic (env : Env) (token fullName' : string) (number' : Z) (w : World) :
  let pr_url := "https://api.github.com/repos/" ++ fullName' ++ "/pulls/" ++ Z_to_string number' in
  let r1 := host env token pr_url json_accept in
  let r2 := host env token (pr_url ++ "/files") json_accept in
  (response_ok r1 = false ->
   getPullRequestDetails env token fullName' number' w =
     (inl (github_error r1),
      mkWorld (db w) (ConsoleError "Error getting PR details:" :: GitHubFetch token pr_url json_accept
                      :: trace w) (next_uuid w))) /\
  (forall j, response_ok r1 = true -> json_body r1 = Some j -> response_ok r2 = false ->
   getPullRequestDetails env token fullName' number' w =
     (inl (github_error r2),
      mkWorld (db w) (ConsoleError "Error getting PR details:"
                      :: GitHubFetch token (pr_url ++ "/files") json_accept
                      :: GitHubFetch token pr_url json_accept :: trace w) (next_uuid w))).
Proof.
  intros pr_url r1 r2. split.
  - intros H1. unfold getPullRequestDetails, try_catch, bind, ret, emit, throw, makeRequest.
    fold json_accept pr_url. fold r1. rewrite H1. reflexivity.
  - intros j H1 Hj H2. unfold getPullRequestDetails, try_catch, bind, ret, emit, throw, makeRequest.
    fold json_accept pr_url. fold r1 r2. rewrite H1, Hj, H2. reflexivity.
Qed.

(** Witness of C7: a 401 on the PR request. *)
Lemma C7_witness :
  response_ok (host (env_status 401 "Unauthorized") "tok"
                 ("https://api.github.com/repos/" ++ "acme/widgets" ++ "/pulls/" ++ Z_to_string 7)
                 json_accept) = false /\
  getPullRequestDetails (env_status 401 "Unauthorized") "tok" "acme/widgets" 7 empty_world =
    (inl (JsError "GitHub API error: 401 Unauthorized"),
     mkWorld (db empty_world)
       [ConsoleError "Error getting PR details:";
        GitHubFetch "tok" "https://api.github.com/repos/acme/widgets/pulls/7" json_accept] 0).
Proof.
  split; [reflexivity|].
  exact (proj1 (C7_details_failure_is_generic (env_status 401 "Unauthorized") "tok" "acme/widgets" 7
                  empty_world) eq_refl).
Defined.

(** C7 (counterexample): a rejected token (401) and a missing pull request
    (404) give errors of the same plain kind, told apart only by the text. *)
Lemma C7_auth_and_missing_same_error :
  fst (getPullRequestDetails (env_status 401 "Unauthorized") "tok" "acme/widgets" 7 empty_world) =
    inl (JsError "GitHub API error: 401 Unauthorized") /\
  fst (getPullRequestDetails (env_status 404 "Not Found") "tok" "acme/widgets" 7 empty_world) =
    inl (JsError "GitHub API error: 404 Not Found").
Proof. split; vm_compute; reflexivity. Qed.

(*C9*)


(** ** C9 *)

Lemma keeps_repos_bind {A B} (m : M A) (k : A -> M B) :
  keeps_repos m -> (forall a, keeps_repos (k a)) -> keeps_repos (bind m k).
Proof.
  intros Hm Hk w. unfold bind. specialize (Hm w).
  destruct (m w) as [[e|a] w'] eqn:E; simpl in *; [exact Hm|]. rewrite Hk. exact Hm.
Qed.

Lemma keeps_repos_try_catch {A} (m : M A) (h : Exn -> M A) :
  keeps_repos m -> (forall e, keeps_repos (h e)) -> keeps_repos (try_catch m h).
Proof.
  intros Hm Hh w. unfold try_catch. specialize (Hm w).
  destruct (m w) as [[e|a] w'] eqn:E; simpl in *; [rewrite Hh; exact Hm|exact Hm].
Qed.

Lemma keeps_repos_ret {A} (a : A) : keeps_repos (ret a).
Proof. intros w. reflexivity. Qed.

Lemma keeps_repos_throw {A} (e : Exn) : keeps_repos (@throw A e).
Proof. intros w. reflexivity. Qed.

Lemma keeps_repos_emit (e : Event) : keeps_repos (emit e).
Proof. intros w. reflexivity. Qed.

Lemma keeps_repos_iter_m {A} (f : A -> M unit) (l : list A) :
  (forall a, keeps_repos (f a)) -> keeps_repos (iter_m f l).
Proof.
  intros Hf. induction l as [|x l IH]; simpl.
  - apply keeps_repos_ret.
  - apply keeps_repos_bind; [apply Hf|intros _; exact IH].
Qed.

Lemma keeps_repos_makeRequest env token url : keeps_repos (makeRequest env token url).
Proof.
  intros w. unfold makeRequest, bind, emit, throw, ret; simpl.
  destruct (negb _); [reflexivity|]. destruct (json_body _); reflexivity.
Qed.

Lemma keeps_repos_createPullRequest i : keeps_repos (createPullRequest i).
Proof.
  intros w. unfold createPullRequest, bind, get_db, throw, fresh_id, put_db, ret; simpl.
  destruct (existsb _ _); reflexivity.
Qed.

Lemma keeps_repos_updatePullRequest id i : keeps_repos (updatePullRequest id i).
Proof.
  intros w. unfold updatePullRequest, bind, get_db, put_db, ret; simpl.
  destruct (find _ _); reflexivity.
Qed.

Lemma keeps_repos_sync_one rid pr : keeps_repos (sync_one rid pr).
Proof.
  unfold sync_one. apply keeps_repos_bind; [intros w; reflexivity|].
  intros [e|]; apply keeps_repos_bind;
    auto using keeps_repos_updatePullRequest, keeps_repos_createPullRequest, keeps_repos_ret.
Qed.

Lemma keeps_repos_syncPullRequests env rid token fn : keeps_repos (syncPullRequests env rid token fn).
Proof.
  unfold syncPullRequests. apply keeps_repos_try_catch.
  - apply keeps_repos_bind; [apply keeps_repos_makeRequest|].
    intros [[]|]; auto using keeps_repos_throw, keeps_repos_iter_m, keeps_repos_sync_one.
  - intros e. apply keeps_repos_bind; auto using keeps_repos_emit, keeps_repos_throw.
Qed.

Lemma createRepository_stores v w r w' :
  createRepository v w = (inr r, w') -> In r (repositories (db w')).
Proof.
  unfold createRepository, bind, get_db, throw, fresh_id, put_db, ret; simpl.
  destruct (existsb _ _); [discriminate|].
  intros H. injection H as <- <-. simpl. apply in_or_app. right. left. reflexivity.
Qed.

(** C9: in non-demo mode, once validation passed and the repository row was
    created, a failing initial sync is logged ("Error syncing initial PRs:")
    and dropped: the route answers 200 with the created repository, which is
    still stored. *)
Theorem C9_sync_failure_swallowed (env : Env) (v : InsertRepository) (w w1 w2 w3 : World)
    (repo : Repository) (e : Exn)
    (Hmode : isDemoMode v = false)
    (Hvalid : validateRepository env (ins_githubToken v) (ins_fullName v) w = (inr true, w1))
    (Hcreate : createRepository v w1 = (inr repo, w2))
    (Hsync : syncPullRequests env (repo_id repo) (token_str (githubToken repo)) (fullName repo) w2
             = (inl e, w3)) :
  post_repositories env v w =
    (inr (mkResponse 200 (BRepository repo)),
     mkWorld (db w3) (ConsoleError "Error syncing initial PRs:" :: trace w3) (next_uuid w3)) /\
  In repo (repositories (db (snd (post_repositories env v w)))).
Proof.
  assert (Hpost : post_repositories env v w =
    (inr (mkResponse 200 (BRepository repo)),
     mkWorld (db w3) (ConsoleError "Error syncing initial PRs:" :: trace w3) (next_uuid w3))).
  { unfold post_repositories. rewrite Hmode.
    cbv beta iota zeta delta [try_catch bind ret emit negb].
    rewrite Hvalid. cbv beta iota zeta delta [negb].
    rewrite Hcreate. cbv beta iota zeta. rewrite Hsync. reflexivity. }
  split; [exact Hpost|].
  rewrite Hpost. simpl.
  pose proof (keeps_repos_syncPullRequests env (repo_id repo) (token_str (githubToken repo))
                (fullName repo) w2) as Hk.
  rewrite Hsync in Hk. simpl in Hk. rewrite Hk.
  exact (createRepository_stores _ _ _ _ Hcreate).
Qed.

(** Witness of C9: GitHub accepts the token but the PR listing answers 502. *)
Lemma C9_witness :
  fst (post_repositories env_sync_fails (widgets_request "ghp_secret") empty_world) =
    inr (mkResponse 200 (BRepository
      (mkRepository "uuid-0" "widgets" "acme/widgets" (Some "ghp_secret") (Some "main") (Some true)))) /\
  In (mkRepository "uuid-0" "widgets" "acme/widgets" (Some "ghp_secret") (Some "main") (Some true))
     (repositories (db (snd (post_repositories env_sync_fails (widgets_request "ghp_secret") empty_world)))).
Proof.
  edestruct (C9_sync_failure_swallowed env_sync_fails (widgets_request "ghp_secret") empty_world)
    as [H1 H2]; [reflexivity|reflexivity|cbv; reflexivity|cbv; reflexivity|].
  rewrite H1. split; [reflexivity|exact H2].
Defined.

(*C8*)


(** ** C8 *)

Lemma insert_desc_perm p l : Permutation (insert_desc p l) (p :: l).
Proof.
  induction l as [|q r IH]; simpl; [reflexivity|].
  destruct (updatedAt q <? updatedAt p)%Z; [reflexivity|].
  rewrite IH. apply perm_swap.
Qed.

Lemma sort_desc_perm l : Permutation (sort_desc l) l.
Proof.
  induction l as [|p r IH]; simpl; [reflexivity|].
  rewrite insert_desc_perm, IH. reflexivity.
Qed.

Lemma insert_desc_sorted p l :
  StronglySorted newer_or_equal l -> StronglySorted newer_or_equal (insert_desc p l).
Proof.
  induction l as [|q r IH]; simpl; intros Hs.
  - constructor; constructor.
  - apply StronglySorted_inv in Hs as [Hr Hq].
    destruct (updatedAt q <? updatedAt p)%Z eqn:E.
    + apply Z.ltb_lt in E. constructor; [constructor; assumption|].
      constructor; [unfold newer_or_equal; lia|].
      eapply Forall_impl; [|exact Hq]. unfold newer_or_equal. intros a Ha. lia.
    + apply Z.ltb_ge in E. constructor; [apply IH; exact Hr|].
      apply Forall_forall. intros x Hx.
      apply (Permutation_in _ (insert_desc_perm p r)) in Hx.
      destruct Hx as [<-|Hx]; [unfold newer_or_equal; lia|].
      rewrite Forall_forall in Hq. apply Hq, Hx.
Qed.

Lemma sort_desc_sorted l : StronglySorted newer_or_equal (sort_desc l).
Proof.
  induction l as [|p r IH]; simpl; [constructor|]. apply insert_desc_sorted, IH.
Qed.

Lemma strongly_sorted_app {A} (R : A -> A -> Prop) l1 l2 x y :
  StronglySorted R (l1 ++ l2) -> In x l1 -> In y l2 -> R x y.
Proof.
  induction l1 as [|a l1 IH]; simpl; [tauto|].
  intros Hs Hx Hy. apply StronglySorted_inv in Hs as [Hs Ha].
  destruct Hx as [<-|Hx].
  - rewrite Forall_forall in Ha. apply Ha, in_or_app. right. exact Hy.
  - exact (IH Hs Hx Hy).
Qed.

Lemma parse_content_reply_world env raw w : snd (parse_content_reply env raw w) = w.
Proof.
  unfold parse_content_reply, throw, ret.
  destruct raw as [s|]; [|reflexivity].
  destruct (String.eqb s EmptyString); [reflexivity|].
  destruct (parse_report_content env s); reflexivity.
Qed.

(** The Gemini request of [generateRepositoryReportContent] carries the
    repository prompt, whatever the template. *)
Lemma generateRepositoryReportContent_requests env data rt tpl w :
  exists sys, In (GeminiRequest sys (repo_user_prompt env data rt))
                 (trace (snd (generateRepositoryReportContent env data rt tpl w))).
Proof.
  cbv beta iota zeta delta [generateRepositoryReportContent try_catch bind call_gemini emit ret throw].
  eexists.
  match goal with
  | |- context [parse_content_reply env ?raw ?w1] =>
      pose proof (parse_content_reply_world env raw w1) as Hw;
      destruct (parse_content_reply env raw w1) as [[x|c] w2]; simpl in Hw; subst w2
  end; simpl; auto.
Qed.

Ltac in_older_trace H :=
  simpl; repeat (first [exact H | right]).

(** C8: for a stored repository with pull requests, the Gemini request of
    POST /api/repositories/:id/reports carries the repository prompt; it
    renders the first ten of the pull requests sorted newest update first
    (at most ten, none of the rest newer than any of them), and its data
    hold the total PR count and the number of distinct authors. *)
Theorem C8_repository_prompt_lists_ten_newest (env : Env) (w : World) (repoId : string)
    (reportType' title' templateId : option string) (repo : Repository)
    (Hrepo : find_repository repoId (db w) = Some repo)
    (Hprs : prs_of_repository repoId (db w) <> []) :
  let prs := sort_desc (prs_of_repository repoId (db w)) in
  let rt := match reportType' with Some r => r | None => "mvp_summary" end in
  let data := build_repository_data env (sanitize repo) prs in
  (exists sys, In (GeminiRequest sys (repo_user_prompt env data rt))
       (trace (snd (post_repository_reports env repoId reportType' title' templateId w)))) /\
  repo_user_prompt env data rt =
    repo_prompt_header env data ++
    join_empty (map (render_repo_pr env) (map summarize_pr (firstn 10 prs))) ++
    repo_prompt_footer rt /\
  (List.length (firstn 10 prs) <= 10)%nat /\
  Permutation prs (prs_of_repository repoId (db w)) /\
  (forall p q, In p (firstn 10 prs) -> In q (skipn 10 prs) -> (updatedAt q <= updatedAt p)%Z) /\
  totalPRs (rri_repository data) = Z.of_nat (List.length prs) /\
  totalContributors (rri_summary data) = Z.of_nat (List.length (nodup string_dec (map authorName prs))).
Proof.
  cbv zeta.
  assert (Hlen : Nat.eqb (List.length (sort_desc (prs_of_repository repoId (db w)))) 0 = false).
  { apply Nat.eqb_neq. rewrite (Permutation_length (sort_desc_perm _)).
    destruct (prs_of_repository repoId (db w)); [congruence|discriminate]. }
  split; [|split; [|split; [|split; [|split; [|split]]]]].
  - cbv beta iota zeta delta [post_repository_reports try_catch bind ret get_db getRepository
      getPullRequestsByRepository getReportTemplate emit throw createRepositoryReport fresh_id
      put_db updateRepositoryReportPdfPath generatePDF].
    rewrite Hrepo. cbv beta iota delta [option_map]. rewrite Hlen. cbv beta iota.
    destruct (truthy templateId); cbv beta iota;
    match goal with
    | |- context [generateRepositoryReportContent ?e ?d ?r ?t ?w0] =>
        destruct (generateRepositoryReportContent_requests e d r t w0) as [sys Hin];
        exists sys;
        destruct (generateRepositoryReportContent e d r t w0) as [[x|c] w1] eqn:EG;
        simpl in Hin
    end;
    repeat match goal with
           | |- context [match browser_error ?e ?h ?f with _ => _ end] => destruct (browser_error e h f)
           | |- context [match find ?f ?l with _ => _ end] => destruct (find f l)
           end; in_older_trace Hin.
  - unfold repo_user_prompt. simpl rri_pullRequests. rewrite firstn_map. reflexivity.
  - apply firstn_le_length.
  - apply sort_desc_perm.
  - intros p q Hp Hq.
    apply (strongly_sorted_app newer_or_equal (firstn 10 (sort_desc (prs_of_repository repoId (db w))))
             (skipn 10 (sort_desc (prs_of_repository repoId (db w))))); [|exact Hp|exact Hq].
    rewrite firstn_skipn. apply sort_desc_sorted.
  - reflexivity.
  - reflexivity.
Qed.

(** Witness of C8: twelve pull requests of repo-1 in [many_prs_world]. *)
Lemma C8_witness :
  find_repository "repo-1" (db many_prs_world) = Some widgets_repo /\
  map pr_id (firstn 10 (sort_desc (prs_of_repository "repo-1" (db many_prs_world)))) =
    ["b"; "f"; "i"; "d"; "k"; "g"; "l"; "a"; "j"; "e"] /\
  totalContributors (rri_summary (build_repository_data env_ok (sanitize widgets_repo)
                        (sort_desc (prs_of_repository "repo-1" (db many_prs_world))))) = 6%Z /\
  (List.length (firstn 10 (sort_desc (prs_of_repository "repo-1" (db many_prs_world)))) <= 10)%nat.
Proof.
  split; [reflexivity|split; [vm_compute; reflexivity|]].
  destruct (C8_repository_prompt_lists_ten_newest env_ok many_prs_world "repo-1" None None None
              widgets_repo eq_refl ltac:(vm_compute; discriminate))
    as (_ & _ & Hle & _ & _ & _ & Hc).
  split; [rewrite Hc; vm_compute; reflexivity|exact Hle].
Defined.

(** * Further properties of the code *)

(** ** Shared lemmas *)




Lemma find_app_miss {A} (f : A -> bool) (l m : list A) :
  (forall y, In y l -> f y = false) -> find f (l ++ m) = find f m.
Proof.
  induction l as [|x l IH]; intros H; [reflexivity|]. cbn.
  rewrite (H x (or_introl eq_refl)). apply IH. intros y Hy. apply H. right. exact Hy.
Qed.

Lemma valid_audience (a : string) :
  In a ["pm"; "qa"; "client"] -> existsb (String.eqb a) ["pm"; "qa"; "client"] = true.
Proof. intros Ha. apply existsb_exists. exists a. split; [exact Ha|apply String.eqb_refl]. Qed.

(** ** Listing repositories *)

(** X1: GET /api/repositories answers 200 with one entry per stored
    repository, newest first, none of which carries a token, and changes
    nothing. *)
Theorem X_get_repositories_sanitized (w : World) :
  exists rs,
    get_repositories w = (inr (mkResponse 200 (BRepositories rs)), w) /\
    map repo_id rs = rev (map repo_id (repositories (db w))) /\
    map fullName rs = rev (map fullName (repositories (db w))) /\
    forall r, In r rs -> githubToken r = None.
Proof.
  exists (map sanitize (rev (repositories (db w)))).
  split; [reflexivity|]. rewrite !map_map, <- !map_rev. split; [reflexivity|].
  split; [reflexivity|].
  intros r Hr. apply in_map_iff in Hr as [r0 [<- _]]. reflexivity.
Qed.

(** ** GitHubService *)

(** X2: [validateRepository] never throws: it makes exactly one request,
    answers whether that answer was a 2xx with a JSON body, logs a line when
    it was not, and leaves the store alone. *)
Theorem X_validateRepository_total (env : Env) (token fn : string) (w : World) :
  let r := host env token ("https://api.github.com/repos/" ++ fn) json_accept in
  let ok := response_ok r && is_some (json_body r) in
  validateRepository env token fn w =
    (inr ok,
     mkWorld (db w)
       ((if ok then [] else [ConsoleError "Repository validation failed:"]) ++
        GitHubFetch token ("https://api.github.com/repos/" ++ fn) json_accept :: trace w)%list
       (next_uuid w)).
Proof.
  cbv zeta. unfold validateRepository, makeRequest, try_catch, bind, emit, throw, ret; cbn -[response_ok].
  unfold json_accept.
  destruct (response_ok _); cbn; [|reflexivity].
  destruct (json_body _); reflexivity.
Qed.

(** X3: [determineReviewStatus] yields one of closed, merged,
    changes_requested and pending (never approved); it is merged exactly
    when the pull request has a merge time, and closed exactly when it is
    closed without one. *)
Theorem X_determineReviewStatus_range (pr : GitHubPR) :
  In (determineReviewStatus pr) ["closed"; "merged"; "changes_requested"; "pending"] /\
  (determineReviewStatus pr = "merged" <-> merged_at pr <> None) /\
  (determineReviewStatus pr = "closed" <-> state pr = "closed" /\ merged_at pr = None).
Proof.
  unfold determineReviewStatus, is_some.
  destruct (merged_at pr) as [m|]; rewrite ?andb_false_r; cbn.
  - intuition (try discriminate; try congruence).
  - destruct (String.eqb (state pr) "closed") eqn:E; cbn.
    + apply String.eqb_eq in E. intuition (try discriminate; try congruence).
    + apply String.eqb_neq in E. destruct (review_comments pr); cbn;
        intuition (try discriminate; try congruence).
Qed.

(** X4: when the pull-request listing answers with a non-2xx status,
    [syncPullRequests] rethrows the GitHub API error after logging it and
    stores nothing. *)
Theorem X_sync_listing_failure (env : Env) (rid token fn : string) (w : World) :
  let url := "https://api.github.com/repos/" ++ fn ++
             "/pulls?state=all&sort=updated&direction=desc&per_page=50" in
  let r := host env token url json_accept in
  response_ok r = false ->
  syncPullRequests env rid token fn w =
    (inl (github_error r),
     mkWorld (db w) (ConsoleError "Error syncing pull requests:" :: GitHubFetch token url json_accept :: trace w)
       (next_uuid w)).
Proof.
  cbv zeta. intros H. unfold json_accept in *.
  cbv beta iota zeta delta [syncPullRequests makeRequest try_catch bind emit throw ret].
  rewrite H. reflexivity.
Qed.

Lemma X_sync_listing_failure_witness :
  syncPullRequests env_sync_fails "repo-1" "ghp_live" "acme/widgets" empty_world =
    (inl (github_error (host env_sync_fails "ghp_live" pulls_url json_accept)),
     mkWorld (db empty_world) (ConsoleError "Error syncing pull requests:" ::
       GitHubFetch "ghp_live" pulls_url json_accept :: trace empty_world) (next_uuid empty_world)).
Proof.
  apply (X_sync_listing_failure env_sync_fails "repo-1" "ghp_live" "acme/widgets" empty_world).
  vm_compute. reflexivity.
Defined.







(** ** POST /api/repositories/:id/sync *)

Lemma keeps_trace_sync_one rid pr : keeps_trace (sync_one rid pr).
Proof.
  intros w. cbv beta iota zeta delta [sync_one getPullRequestByGithubId updatePullRequest
    createPullRequest bind get_db put_db ret throw fresh_id].
  destruct (find _ _); [destruct (find _ _)|destruct (existsb _ _)]; reflexivity.
Qed.

Lemma keeps_trace_iter_sync rid l : keeps_trace (iter_m (sync_one rid) l).
Proof.
  induction l as [|x l IH]; intros w; [reflexivity|]. cbn [iter_m]. unfold bind.
  pose proof (keeps_trace_sync_one rid x w) as H.
  destruct (sync_one rid x w) as [[e|[]] w']; cbn in *; [exact H|]. rewrite IH. exact H.
Qed.

(** X7: the sync route reads the repository without its token, so for a
    stored repository its only request to GitHub is the pull-request listing
    sent with the token "undefined", whatever token is stored. *)
Theorem X_sync_route_uses_undefined_token (env : Env) (w : World) (id : string) (r : Repository) :
  find_repository id (db w) = Some r ->
  let url := "https://api.github.com/repos/" ++ fullName r ++
             "/pulls?state=all&sort=updated&direction=desc&per_page=50" in
  exists evs,
    trace (snd (post_sync env id w)) = (evs ++ GitHubFetch "undefined" url json_accept :: trace w)%list /\
    forallb (fun e => negb (is_github_fetch e)) evs = true.
Proof.
  intros Hr. cbv zeta.
  cbv beta iota zeta delta [post_sync try_catch bind getRepository get_db ret syncPullRequests
    makeRequest emit throw].
  rewrite Hr. cbn [option_map sanitize repo_id fullName githubToken token_str db trace next_uuid].
  unfold json_accept.
  destruct (negb (response_ok _)); cbn [db trace next_uuid snd].
  - exists [ConsoleError "Error syncing pull requests:"; ConsoleError "Error syncing pull requests:"].
    split; reflexivity.
  - destruct (json_body _) as [[]|]; cbn [db trace next_uuid snd];
      try (exists [ConsoleError "Error syncing pull requests:"; ConsoleError "Error syncing pull requests:"];
           split; reflexivity).
    match goal with |- context [iter_m (sync_one ?rid) ?l ?w0] =>
      pose proof (keeps_trace_iter_sync rid l w0) as Ht;
      destruct (iter_m (sync_one rid) l w0) as [[e|[]] w1] end;
    cbn [snd trace db next_uuid] in *; rewrite Ht.
    + exists [ConsoleError "Error syncing pull requests:"; ConsoleError "Error syncing pull requests:"].
      split; reflexivity.
    + exists []. split; reflexivity.
Qed.

Lemma X_sync_route_uses_undefined_token_witness :
  exists evs,
    trace (snd (post_sync env_ok "repo-1" sample_world)) =
      (evs ++ GitHubFetch "undefined" pulls_url json_accept :: trace sample_world)%list /\
    forallb (fun e => negb (is_github_fetch e)) evs = true.
Proof.
  apply (X_sync_route_uses_undefined_token env_ok sample_world "repo-1" widgets_repo).
  reflexivity.
Defined.

(** ** POST /api/repositories *)

(** X8: a non-demo creation request whose repository GitHub does not
    confirm (a non-2xx answer or a body that is not JSON) answers 400 and
    stores nothing; its one request is the repository lookup. *)
Theorem X_invalid_repository_rejected (env : Env) (v : InsertRepository) (w : World) :
  let url := "https://api.github.com/repos/" ++ ins_fullName v in
  let r := host env (ins_githubToken v) url json_accept in
  isDemoMode v = false ->
  response_ok r && is_some (json_body r) = false ->
  post_repositories env v w =
    (inr (mkResponse 400 (BMessage "Invalid GitHub token or repository access")),
     mkWorld (db w) (ConsoleError "Repository validation failed:" ::
                     GitHubFetch (ins_githubToken v) url json_accept :: trace w) (next_uuid w)).
Proof.
  cbv zeta. intros Hd Hv. unfold json_accept in *.
  cbv beta iota zeta delta [post_repositories try_catch bind validateRepository makeRequest emit throw ret].
  rewrite Hd. cbn [db trace next_uuid].
  destruct (response_ok _) eqn:E; cbn [negb andb] in *.
  - destruct (json_body _); [discriminate|reflexivity].
  - reflexivity.
Qed.

Lemma X_invalid_repository_rejected_witness :
  post_repositories (env_status 401 "Unauthorized") (widgets_request "ghp_bad") empty_world =
    (inr (mkResponse 400 (BMessage "Invalid GitHub token or repository access")),
     mkWorld (db empty_world) (ConsoleError "Repository validation failed:" ::
        GitHubFetch "ghp_bad" repo_url json_accept :: trace empty_world) (next_uuid empty_world)).
Proof.
  apply (X_invalid_repository_rejected (env_status 401 "Unauthorized") (widgets_request "ghp_bad") empty_world);
    vm_compute; reflexivity.
Defined.

Section Preserves.
Variable P : World -> Prop.

Lemma preserves_bind {A B} (m : M A) (k : A -> M B) :
  preserves P m -> (forall a, preserves P (k a)) -> preserves P (bind m k).
Proof.
  intros Hm Hk w Hw. unfold bind. specialize (Hm w Hw).
  destruct (m w) as [[e|a] w']; cbn in *; [exact Hm|]. apply Hk. exact Hm.
Qed.

Lemma preserves_try_catch {A} (m : M A) (h : Exn -> M A) :
  preserves P m -> (forall e, preserves P (h e)) -> preserves P (try_catch m h).
Proof.
  intros Hm Hh w Hw. unfold try_catch. specialize (Hm w Hw).
  destruct (m w) as [[e|a] w']; cbn in *; [apply Hh; exact Hm|exact Hm].
Qed.

Lemma preserves_ret {A} (a : A) : preserves P (ret a).
Proof. intros w Hw. exact Hw. Qed.

Lemma preserves_iter_m {A} (f : A -> M unit) (l : list A) :
  (forall a, preserves P (f a)) -> preserves P (iter_m f l).
Proof.
  intros Hf. induction l as [|x l IH]; cbn [iter_m].
  - apply preserves_ret.
  - apply preserves_bind; [apply Hf|intros _; exact IH].
Qed.

End Preserves.

Lemma preserves_of_keeps_repos {A} (m : M A) : keeps_repos m -> preserves unique_full_names m.
Proof. intros H w Hw. unfold unique_full_names. rewrite H. exact Hw. Qed.

Lemma preserves_emit e : preserves unique_full_names (emit e).
Proof. apply preserves_of_keeps_repos. apply keeps_repos_emit. Qed.

Lemma existsb_fullName_false (rs : list Repository) (n : string) :
  existsb (fun r => String.eqb (fullName r) n) rs = false -> ~ In n (map fullName rs).
Proof.
  induction rs as [|r rs IH]; [intros _ []|]. cbn. intros H [Heq|Hin].
  - subst n. rewrite String.eqb_refl in H. discriminate.
  - apply orb_false_iff in H as [_ H]. exact (IH H Hin).
Qed.

Lemma NoDup_snoc {A} (l : list A) (x : A) : NoDup l -> ~ In x l -> NoDup (l ++ [x]).
Proof.
  intros Hnd Hx. apply NoDup_app; auto using NoDup_cons, NoDup_nil.
  intros y Hy [<-|[]]. exact (Hx Hy).
Qed.

Lemma preserves_createRepository ins : preserves unique_full_names (createRepository ins).
Proof.
  intros w Hw. unfold unique_full_names in *.
  cbv beta iota zeta delta [createRepository bind get_db put_db ret throw fresh_id].
  destruct (existsb _ _) eqn:E; [exact Hw|]. cbn [snd db set_repositories repositories].
  rewrite map_app. apply NoDup_snoc; [exact Hw|]. apply existsb_fullName_false. exact E.
Qed.

Lemma keeps_repos_validateRepository env token fn : keeps_repos (validateRepository env token fn).
Proof.
  unfold validateRepository. apply keeps_repos_try_catch.
  - apply keeps_repos_bind; [apply keeps_repos_makeRequest|intros; apply keeps_repos_ret].
  - intros e. apply keeps_repos_bind; [apply keeps_repos_emit|intros; apply keeps_repos_ret].
Qed.

(** X9: a creation request, demo or not, successful or not, never leaves two
    stored repositories with the same full name. *)
Theorem X_post_repositories_unique_names (env : Env) (v : InsertRepository) (w : World) :
  NoDup (map fullName (repositories (db w))) ->
  NoDup (map fullName (repositories (db (snd (post_repositories env v w))))).
Proof.
  revert w. change (preserves unique_full_names (post_repositories env v)).
  unfold post_repositories. apply preserves_try_catch.
  - destruct (isDemoMode v).
    + apply preserves_bind; [apply preserves_emit|intros _].
      apply preserves_bind; [apply preserves_createRepository|intros repo].
      apply preserves_bind; [|intros _; apply preserves_ret].
      apply preserves_iter_m. intros pr. apply preserves_of_keeps_repos.
      apply keeps_repos_bind; [apply keeps_repos_createPullRequest|intros; apply keeps_repos_ret].
    + apply preserves_bind; [apply preserves_of_keeps_repos, keeps_repos_validateRepository|intros ok].
      destruct (negb ok); [apply preserves_ret|].
      apply preserves_bind; [apply preserves_createRepository|intros repo].
      apply preserves_bind; [|intros _; apply preserves_ret].
      apply preserves_try_catch; [apply preserves_of_keeps_repos, keeps_repos_syncPullRequests|].
      intros; apply preserves_emit.
  - intros e. apply preserves_bind; [apply preserves_emit|intros _; apply preserves_ret].
Qed.

Lemma X_post_repositories_unique_names_witness :
  NoDup (map fullName (repositories (db (snd (post_repositories env_ok demo_request sample_world))))).
Proof.
  apply X_post_repositories_unique_names. cbn. constructor; [intros []|constructor].
Defined.

(** ** DELETE /api/repositories/:id *)

(** X10: DELETE /api/repositories/:id on an id no stored repository has
    answers 404 "Repository not found" and leaves the world unchanged;
    deleting a stored repository that a pull request still references fails
    with 500 "Failed to delete repository", keeps the store as it was (the
    foreign key has no cascade) and adds one log line. *)
Theorem X_delete_referenced_repository (w : World) (id : string) :
  (find_repository id (db w) = None ->
   delete_repository id w = (inr (mkResponse 404 (BMessage "Repository not found")), w)) /\
  (forall r, find_repository id (db w) = Some r ->
   existsb (fun p => String.eqb (repositoryId p) id) (pullRequests (db w)) = true ->
   delete_repository id w =
     (inr (mkResponse 500 (BMessage "Failed to delete repository")),
      mkWorld (db w) (ConsoleError "Error deleting repository:" :: trace w) (next_uuid w))).
Proof.
  cbv beta iota zeta delta [delete_repository deleteRepository try_catch bind get_db ret throw emit].
  split.
  - intros Hn. rewrite Hn. reflexivity.
  - intros r Hr Hp. rewrite Hr, Hp. reflexivity.
Qed.

(** Witness of X10: "repo-404" is unknown in [sample_world]; "repo-1" is
    stored and referenced by [pr_1]. *)
Lemma X_delete_referenced_repository_witness :
  delete_repository "repo-404" sample_world =
    (inr (mkResponse 404 (BMessage "Repository not found")), sample_world) /\
  delete_repository "repo-1" sample_world =
    (inr (mkResponse 500 (BMessage "Failed to delete repository")),
     mkWorld (db sample_world) (ConsoleError "Error deleting repository:" :: trace sample_world)
       (next_uuid sample_world)).
Proof.
  split.
  - apply (proj1 (X_delete_referenced_repository sample_world "repo-404")). reflexivity.
  - apply (proj2 (X_delete_referenced_repository sample_world "repo-1") widgets_repo); reflexivity.
Defined.

(** ** DELETE /api/report-templates/:id *)

(** X11: the template DELETE route removes every template with the id,
    answers 204 when one existed and 404 otherwise, in which case the table
    is unchanged; it logs nothing. *)
Theorem X_delete_template_route (w : World) (id : string) :
  let kept := filter (fun t => negb (String.eqb (tpl_id t) id)) (reportTemplates (db w)) in
  delete_report_template id w =
    (inr (if existsb (fun t => String.eqb (tpl_id t) id) (reportTemplates (db w))
          then mkResponse 204 BNoContent
          else mkResponse 404 (BMessage "Template not found")),
     mkWorld (set_reportTemplates (db w) kept) (trace w) (next_uuid w)) /\
  (existsb (fun t => String.eqb (tpl_id t) id) (reportTemplates (db w)) = false ->
   kept = reportTemplates (db w)).
Proof.
  cbv zeta.
  assert (Hk : existsb (fun t => String.eqb (tpl_id t) id) (reportTemplates (db w)) = false ->
               filter (fun t => negb (String.eqb (tpl_id t) id)) (reportTemplates (db w)) =
               reportTemplates (db w)).
  { induction (reportTemplates (db w)) as [|t l IH]; [reflexivity|]. cbn.
    destruct (String.eqb (tpl_id t) id); cbn; [discriminate|]. intros H. f_equal. exact (IH H). }
  split; [|exact Hk].
  unfold delete_report_template, deleteReportTemplate, try_catch, bind, get_db, put_db, ret;
    cbn -[Nat.ltb filter List.length existsb].
  destruct (existsb (fun t => String.eqb (tpl_id t) id) (reportTemplates (db w))) eqn:E.
  - apply existsb_exists in E as [t [Hin Ht]].
    rewrite (proj2 (Nat.ltb_lt _ _)); [reflexivity|].
    apply filter_drops_length with t; [exact Hin|]. rewrite Ht. reflexivity.
  - rewrite (Hk eq_refl), Nat.ltb_irrefl. reflexivity.
Qed.

Lemma X_delete_template_route_witness :
  delete_report_template "tpl-missing" sample_world =
    (inr (mkResponse 404 (BMessage "Template not found")),
     mkWorld (set_reportTemplates (db sample_world) (reportTemplates (db sample_world)))
       (trace sample_world) (next_uuid sample_world)).
Proof.
  destruct (X_delete_template_route sample_world "tpl-missing") as [H1 H2].
  rewrite H1, (H2 eq_refl). reflexivity.
Defined.

(** ** POST /api/pull-requests/:id/reports *)

(** X12: the report route decides demo mode on the repository row read
    without its token, so only the full name counts: for a repository whose
    full name lacks "demo" (even one created in demo mode and stored with
    the demo token), with no template and no GITHUB_TOKEN, a valid request
    answers 500 "GitHub token not configured" and changes nothing. *)
Theorem X_pr_report_ignores_stored_token (env : Env) (w : World) (prId a : string)
    (tid : option string) (p : PullRequest) (r : Repository)
    (Hp : find (fun q => String.eqb (pr_id q) prId) (pullRequests (db w)) = Some p)
    (Hr : find_repository (repositoryId p) (db w) = Some r)
    (Hname : includes "demo" (toLowerCase (fullName r)) = false)
    (Ha : In a ["pm"; "qa"; "client"])
    (Ht : truthy tid = None)
    (Henv : github_token_env env = None) :
  post_pr_reports env prId a tid w =
    (inr (mkResponse 500 (BMessage "GitHub token not configured")), w).
Proof.
  cbv beta iota zeta delta [post_pr_reports try_catch bind getPullRequest getRepository get_db ret
    generate_pr_report].
  rewrite (valid_audience a Ha). cbn [negb]. rewrite Hp, Hr. cbn [option_map]. rewrite Ht.
  unfold isDemoRepo. cbn [sanitize githubToken fullName]. rewrite Hname. cbn [orb].
  rewrite Henv. reflexivity.
Qed.

Lemma X_pr_report_ignores_stored_token_witness :
  post_pr_reports (env_status 200 "OK") "pr-1" "qa" None
    (mkWorld (mkDB [demo_token_repo] [pr_1] [] [] []) [] 0) =
    (inr (mkResponse 500 (BMessage "GitHub token not configured")),
     mkWorld (mkDB [demo_token_repo] [pr_1] [] [] []) [] 0).
Proof.
  apply (X_pr_report_ignores_stored_token _ _ _ _ _ pr_1 demo_token_repo);
    [reflexivity|reflexivity|vm_compute; reflexivity|simpl; auto|reflexivity|reflexivity].
Defined.

(** X13: for a pull request of a repository whose full name contains
    "demo", with a valid audience and no template, when Gemini's answer
    parses and the browser renders, the route never calls GitHub, answers
    200 with the stored report of that pull request, audience and content,
    appends exactly that row (its fresh id being unused), and records the
    PDF path reports/<report id>-<audience>.pdf under the working
    directory. *)
Theorem X_demo_pr_report_success (env : Env) (w : World) (prId a : string)
    (tid : option string) (p : PullRequest) (r : Repository) (s : string) (c : Pdf.ReportContent)
    (Hp : find (fun q => String.eqb (pr_id q) prId) (pullRequests (db w)) = Some p)
    (Hr : find_repository (repositoryId p) (db w) = Some r)
    (Hname : includes "demo" (toLowerCase (fullName r)) = true)
    (Ha : In a ["pm"; "qa"; "client"])
    (Ht : truthy tid = None)
    (Hg : gemini_text env (getSystemPromptForAudience a)
            (pr_user_prompt (demo_details (sanitize r) p)) = Some s)
    (Hs : s <> EmptyString)
    (Hc : parse_report_content env s = Some c)
    (Hb : browser_error env (Pdf.generateHTMLReport c a (today env))
            ((cwd env ++ "/reports") ++ "/" ++ ("uuid-" ++ Z_to_string (Z.of_nat (next_uuid w))) ++
             "-" ++ a ++ ".pdf") = None)
    (Hfresh : ~ In ("uuid-" ++ Z_to_string (Z.of_nat (next_uuid w))) (map report_id (reports (db w)))) :
  exists rep,
    fst (post_pr_reports env prId a tid w) = inr (mkResponse 200 (BReport rep)) /\
    reports (db (snd (post_pr_reports env prId a tid w))) = (reports (db w) ++ [rep])%list /\
    pullRequestId rep = prId /\ report_audience rep = a /\ report_content rep = c /\
    pdfPath rep = Some ((cwd env ++ "/reports") ++ "/" ++ report_id rep ++ "-" ++ a ++ ".pdf") /\
    exists evs, trace (snd (post_pr_reports env prId a tid w)) = (evs ++ trace w)%list /\
      forallb (fun e => negb (is_github_fetch e)) evs = true.
Proof.
  set (nid := "uuid-" ++ Z_to_string (Z.of_nat (next_uuid w))) in *.
  assert (Hf : forall y, In y (reports (db w)) -> String.eqb (report_id y) nid = false).
  { intros y Hy. apply String.eqb_neq. intros He. apply Hfresh. rewrite <- He. apply in_map. exact Hy. }
  cbv beta iota zeta delta [post_pr_reports try_catch bind getPullRequest getRepository get_db ret
    generate_pr_report].
  rewrite (valid_audience a Ha). cbn [negb]. rewrite Hp, Hr. cbn [option_map]. rewrite Ht.
  unfold isDemoRepo. cbn [sanitize githubToken fullName]. rewrite Hname. cbn [orb].
  cbv beta iota zeta delta [generateReportContent try_catch bind call_gemini emit parse_content_reply
    throw ret].
  cbn [db trace next_uuid].
  rewrite Hg. apply String.eqb_neq in Hs. rewrite Hs, Hc.
  cbv beta iota zeta delta [createReport generatePDF updateReportPdfPath bind get_db fresh_id put_db ret emit throw].
  cbn [db trace next_uuid set_reports reports report_id].
  match goal with
  | |- context [browser_error ?e ?h ?f] =>
      replace (browser_error e h f) with (@None Exn) by (symmetry; exact Hb)
  end.
  cbn [report_id db trace next_uuid set_reports reports].
  rewrite find_app_miss; [|intros y Hy; apply Hf; exact Hy].
  cbn [find report_id]. rewrite String.eqb_refl. cbn [db trace next_uuid set_reports reports fst snd].
  rewrite map_app, (map_ext_in _ (fun y => y)), map_id; [|intros y Hy; rewrite Hf by exact Hy; reflexivity].
  cbn [map report_id]. rewrite String.eqb_refl.
  eexists. split; [reflexivity|]. split; [reflexivity|].
  split; [reflexivity|]. split; [reflexivity|]. split; [reflexivity|]. split; [reflexivity|].
  lazymatch goal with
  | |- exists evs, ?X = (evs ++ trace w)%list /\ _ =>
      let q := prefix_of X (trace w) in exists q; split; reflexivity
  end.
Qed.

Lemma X_demo_pr_report_success_witness :
  exists rep,
    fst (post_pr_reports env_generates "pr-9" "qa" None demo_world) = inr (mkResponse 200 (BReport rep)) /\
    reports (db (snd (post_pr_reports env_generates "pr-9" "qa" None demo_world))) =
      (reports (db demo_world) ++ [rep])%list /\
    pullRequestId rep = "pr-9" /\ report_audience rep = "qa" /\ report_content rep = report_with_emoji /\
    pdfPath rep = Some ((cwd env_generates ++ "/reports") ++ "/" ++ report_id rep ++ "-" ++ "qa" ++ ".pdf") /\
    exists evs, trace (snd (post_pr_reports env_generates "pr-9" "qa" None demo_world)) =
                  (evs ++ trace demo_world)%list /\
      forallb (fun e => negb (is_github_fetch e)) evs = true.
Proof.
  apply (X_demo_pr_report_success env_generates demo_world "pr-9" "qa" None demo_pr demo_repo "{}").
  - reflexivity.
  - reflexivity.
  - vm_compute. reflexivity.
  - simpl; auto.
  - reflexivity.
  - reflexivity.
  - discriminate.
  - reflexivity.
  - reflexivity.
  - intros [].
Defined.

(** ** POST /api/repositories/:id/reports *)

(** X14: the repository-report route answers without touching Gemini, the
    store or the log when the repository has no stored pull request: 404
    when the repository is unknown, 400 otherwise. *)
Theorem X_repository_report_without_prs (env : Env) (w : World) (repoId : string)
    (rt tt' tid : option string) :
  prs_of_repository repoId (db w) = [] ->
  post_repository_reports env repoId rt tt' tid w =
    (inr (match find_repository repoId (db w) with
          | None => mkResponse 404 (BMessage "Repository not found")
          | Some _ => mkResponse 400 (BMessage "No pull requests found for repository. Please sync the repository first.")
          end), w).
Proof.
  intros H. cbv beta iota zeta delta [post_repository_reports try_catch bind getRepository
    getPullRequestsByRepository get_db ret].
  destruct (find_repository repoId (db w)); cbn -[prs_of_repository]; [|reflexivity].
  rewrite H. reflexivity.
Qed.

Lemma X_repository_report_without_prs_witness :
  post_repository_reports env_ok "repo-1" None None None
    (mkWorld (mkDB [widgets_repo] [] [] [] []) [] 0) =
    (inr (mkResponse 400 (BMessage "No pull requests found for repository. Please sync the repository first.")),
     mkWorld (mkDB [widgets_repo] [] [] [] []) [] 0).
Proof.
  exact (X_repository_report_without_prs env_ok (mkWorld (mkDB [widgets_repo] [] [] [] []) [] 0) "repo-1"
           None None None eq_refl).
Defined.

Lemma count_three (prs : list PullRequest) :
  (count_status "open" prs + count_status "closed" prs + count_status "merged" prs <=
   Z.of_nat (List.length prs))%Z.
Proof.
  unfold count_status. induction prs as [|p l IH]; [cbn; lia|]. cbn [filter List.length].
  destruct (String.eqb (status p) "open") eqn:Eo;
  destruct (String.eqb (status p) "closed") eqn:Ec;
  destruct (String.eqb (status p) "merged") eqn:Em;
  try (apply String.eqb_eq in Eo); try (apply String.eqb_eq in Ec); try (apply String.eqb_eq in Em);
  try congruence; cbn [List.length]; lia.
Qed.

(** X15: the repository summary handed to Gemini is consistent: the open,
    closed and merged counts add up to at most the total, active and
    completed features are the open and merged counts, and the number of
    contributors is at most the number of pull requests and positive when
    there is one. *)
Theorem X_repository_data_counts (env : Env) (repo : Repository) (prs : list PullRequest) :
  let data := build_repository_data env repo prs in
  (totalPRs (rri_repository data) = Z.of_nat (List.length prs)) /\
  (openPRs (rri_repository data) + closedPRs (rri_repository data) + mergedPRs (rri_repository data) <=
     totalPRs (rri_repository data))%Z /\
  activeFeatures (rri_summary data) = openPRs (rri_repository data) /\
  completedFeatures (rri_summary data) = mergedPRs (rri_repository data) /\
  (totalContributors (rri_summary data) <= totalPRs (rri_repository data))%Z /\
  (prs <> [] -> 0 < totalContributors (rri_summary data))%Z.
Proof.
  cbv zeta. cbn [build_repository_data rri_repository rri_summary
    totalPRs openPRs closedPRs mergedPRs activeFeatures completedFeatures totalContributors].
  split; [reflexivity|]. split; [apply count_three|].
  split; [reflexivity|]. split; [reflexivity|].
  assert (Hle : (List.length (nodup string_dec (map authorName prs)) <= List.length prs)%nat).
  { rewrite <- (length_map authorName prs). apply NoDup_incl_length; [apply NoDup_nodup|].
    intros x Hx. apply nodup_In in Hx. exact Hx. }
  split; [lia|].
  intros Hne. destruct prs as [|p l]; [congruence|].
  assert (Hin : In (authorName p) (nodup string_dec (map authorName (p :: l)))).
  { apply nodup_In. left. reflexivity. }
  destruct (nodup string_dec (map authorName (p :: l))); [contradiction|]. cbn [List.length]. lia.
Qed.

Lemma X_repository_data_counts_witness :
  let data := build_repository_data env_ok widgets_repo (pullRequests (db many_prs_world)) in
  (totalPRs (rri_repository data) = 13%Z) /\
  (0 < totalContributors (rri_summary data))%Z.
Proof.
  destruct (X_repository_data_counts env_ok widgets_repo (pullRequests (db many_prs_world)))
    as (H1 & _ & _ & _ & _ & H6).
  split; [exact H1|]. apply H6. discriminate.
Defined.

(** ** GeminiService *)

(** X16: without a template, an empty or missing Gemini answer makes
    [generateReportContent] fail with "Failed to generate report content:
    Error: Empty response from Gemini" after one Gemini request and one log
    line, storing nothing. *)
Theorem X_report_content_empty_reply (env : Env) (d : GitHubPRDetails) (a : string) (w : World) :
  let sys := getSystemPromptForAudience a in
  truthy (gemini_text env sys (pr_user_prompt d)) = None ->
  generateReportContent env d a None w =
    (inl (JsError "Failed to generate report content: Error: Empty response from Gemini"),
     mkWorld (db w) (ConsoleError "Error generating report content:" ::
                     GeminiRequest sys (pr_user_prompt d) :: trace w) (next_uuid w)).
Proof.
  cbv zeta. intros H.
  cbv beta iota zeta delta [generateReportContent try_catch bind call_gemini emit parse_content_reply
    throw ret].
  destruct (gemini_text env _ _) as [s|]; [|reflexivity].
  cbn in H. destruct (String.eqb s EmptyString); [reflexivity|discriminate].
Qed.

Lemma X_report_content_empty_reply_witness :
  generateReportContent env_ok (demo_details widgets_repo pr_1) "qa" None empty_world =
    (inl (JsError "Failed to generate report content: Error: Empty response from Gemini"),
     mkWorld (db empty_world) (ConsoleError "Error generating report content:" ::
        GeminiRequest (getSystemPromptForAudience "qa") (pr_user_prompt (demo_details widgets_repo pr_1))
        :: trace empty_world) (next_uuid empty_world)).
Proof. apply X_report_content_empty_reply. reflexivity. Defined.

(** X17: [generateInsights] only looks at the first ten pull requests: two
    non-empty lists that agree on their first ten entries give the same
    result and the same effects. *)
Theorem X_generateInsights_first_ten (env : Env) (l1 l2 : list PullRequest) :
  l1 <> [] -> l2 <> [] -> firstn 10 l1 = firstn 10 l2 ->
  forall w, generateInsights env l1 w = generateInsights env l2 w.
Proof.
  intros H1 H2 H w. unfold generateInsights.
  destruct l1; [congruence|]. destruct l2; [congruence|]. cbn [List.length Nat.eqb].
  rewrite H. reflexivity.
Qed.

Lemma X_generateInsights_first_ten_witness :
  generateInsights env_ok (pullRequests (db many_prs_world)) empty_world =
  generateInsights env_ok (firstn 10 (pullRequests (db many_prs_world))) empty_world.
Proof.
  apply X_generateInsights_first_ten; [discriminate|discriminate|reflexivity].
Defined.


(** ** PDFService.replaceEmojis *)

Lemma includes_high_byte (a : ascii) (p s : string) :
  (128 <= nat_of_ascii a)%nat -> ascii_only s = true -> includes (String a p) s = false.
Proof.
  intros Ha. induction s as [|b s IH]; [reflexivity|]. cbn [ascii_only]. intros H.
  apply andb_true_iff in H as [Hb Hs]. apply Nat.ltb_lt in Hb.
  cbn [includes strip_prefix]. destruct (Ascii.eqb_spec a b) as [<-|_]; [lia|]. apply IH. exact Hs.
Qed.

Lemma replace_all_fuel_noop (fuel : nat) (pat rep s : string) :
  includes pat s = false -> replace_all_fuel fuel pat rep s = s.
Proof.
  revert s. induction fuel as [|f IH]; intros s H; [reflexivity|].
  destruct s as [|c s]; [reflexivity|]. cbn [replace_all_fuel].
  cbn [includes] in H. destruct (strip_prefix pat (String c s)); [discriminate|].
  rewrite IH by exact H. reflexivity.
Qed.

Lemma fold_replace_noop (table : list (string * string)) (text : string) :
  (forall g r, In (g, r) table -> includes g text = false) ->
  fold_left (fun acc '(g, r) => replace_all g r acc) table text = text.
Proof.
  induction table as [|[g r] table IH]; intros H; [reflexivity|]. cbn [fold_left].
  unfold replace_all at 2. rewrite replace_all_fuel_noop by (apply (H g r); left; reflexivity).
  apply IH. intros g' r' Hin. apply (H g' r'). right. exact Hin.
Qed.

(** X19: [replaceEmojis] leaves plain ASCII text unchanged: every glyph of
    its table starts with a byte above 127. *)
Theorem X_replaceEmojis_ascii_identity (text : string) :
  ascii_only text = true -> Pdf.replaceEmojis text = text.
Proof.
  intros H. apply fold_replace_noop. intros g r Hin.
  assert (Hg : exists a p, g = String a p /\ (128 <= nat_of_ascii a)%nat).
  { cbn in Hin.
    repeat (destruct Hin as [Hin|Hin];
            [injection Hin as <- _; eexists _, _; split; [reflexivity|vm_compute; lia]|]).
    destruct Hin. }
  destruct Hg as (a & p & -> & Ha). apply includes_high_byte; assumption.
Qed.

Lemma X_replaceEmojis_ascii_identity_witness :
  ascii_only "Release plan" = true /\ Pdf.replaceEmojis "Release plan" = "Release plan".
Proof.
  split; [reflexivity|]. apply X_replaceEmojis_ascii_identity. reflexivity.
Defined.


End Proofs.
